(** * smallt: a shallow embedding of [smallt.py] and its checked properties

    The program keeps a task list in the text file [tasks.md].  Every
    operation reads the whole file, splits it into lines, edits the list of
    lines and writes it back.  This development embeds

    - the Python string primitives the program relies on ([str.splitlines],
      [str.strip], [str.split], [str.lower], [str.replace], [str.join],
      [str.startswith], [in]);
    - the task file as an explicit store threaded through every operation;
    - the storage helpers, the task operations, the interactive shell and the
      one-shot dispatcher of [smallt.py].

    Text is modelled as [string], a character being a code point below 256
    (the Latin-1 range); on that range the character classes below are the
    ones CPython uses.  Characters beyond that range are outside the
    development: among them the line boundaries U+2028 and U+2029, and the
    lone surrogates, which cannot be encoded when a text is written.  The
    file is taken to be read and written in an encoding that holds every
    character of the range, as UTF-8 does, so that writing a text fails with
    [OSError] or not at all. *)

From Stdlib Require Import String Ascii NArith ZArith List Bool Lia.
From stdpp Require Import base list.
Import ListNotations.

Open Scope list_scope.
Open Scope string_scope.

(** ** Characters *)

Module Char.

Definition code (c : ascii) : N := N_of_ascii c.

Definition LF : ascii := "010"%char.
Definition CR : ascii := "013"%char.

Definition between (lo hi n : N) : bool := ((lo <=? n) && (n <=? hi))%N.

(** The characters below 256 at which [str.splitlines] ends a line: [\n],
    [\v], [\f], [\r], [\x1c], [\x1d], [\x1e] and [\x85]. *)
Definition is_line_boundary (c : ascii) : bool :=
  between 10 13 (code c) || between 28 30 (code c) || (code c =? 133)%N.

(** [str.isspace] on one character: [\t] to [\r], [\x1c] to [\x1f], the
    space, [\x85] and [\xa0]. *)
Definition is_space (c : ascii) : bool :=
  between 9 13 (code c) || between 28 32 (code c)
  || (code c =? 133)%N || (code c =? 160)%N.

(** [str.lower] on one character: [A]-[Z] and the accented capitals
    [\xc0]-[\xde] (the multiplication sign [\xd7] apart) move up by 32. *)
Definition lower (c : ascii) : ascii :=
  if between 65 90 (code c)
     || (between 192 222 (code c) && negb (code c =? 215)%N)
  then ascii_of_N (code c + 32)
  else c.

Definition is_digit (c : ascii) : bool := between 48 57 (code c).

End Char.

(** ** Python strings *)

Module Py.

(** [s.startswith(p)] *)
Definition startswith (p s : string) : bool := String.prefix p s.

(** [sub in s] *)
Fixpoint contains (sub s : string) : bool :=
  startswith sub s
  || match s with
     | EmptyString => false
     | String _ rest => contains sub rest
     end.

(** [s.lower()] *)
Fixpoint lower (s : string) : string :=
  match s with
  | EmptyString => EmptyString
  | String c rest => String (Char.lower c) (lower rest)
  end.

Fixpoint drop (n : nat) (s : string) : string :=
  match n, s with
  | S k, String _ rest => drop k rest
  | _, _ => s
  end.

(** [s.replace(old, new, 1)]: only the leftmost occurrence is replaced. *)
Fixpoint replace_first (old new s : string) : string :=
  if startswith old s then new ++ drop (String.length old) s
  else match s with
       | EmptyString => EmptyString
       | String c rest => String c (replace_first old new rest)
       end.

(** [s.replace(old, "")] for a non-empty [old]: every occurrence, scanning
    from the left, occurrences not overlapping.  [skip] counts the characters
    of the occurrence being removed that are still to be dropped. *)
Fixpoint remove_from (old : string) (skip : nat) (s : string) : string :=
  match s with
  | EmptyString => EmptyString
  | String c rest =>
      match skip with
      | S k => remove_from old k rest
      | O => if startswith old s
             then remove_from old (String.length old - 1) rest
             else String c (remove_from old 0 rest)
      end
  end.

Definition remove_all (old s : string) : string := remove_from old 0 s.

(** [s.lstrip()], [s.rstrip()] and [s.strip()] *)
Fixpoint lstrip (s : string) : string :=
  match s with
  | EmptyString => EmptyString
  | String c rest => if Char.is_space c then lstrip rest else s
  end.

Fixpoint rstrip (s : string) : string :=
  match s with
  | EmptyString => EmptyString
  | String c rest =>
      match rstrip rest with
      | EmptyString => if Char.is_space c then EmptyString else String c EmptyString
      | r => String c r
      end
  end.

Definition strip (s : string) : string := rstrip (lstrip s).

(** [sep.join(parts)] *)
Definition join (sep : string) (parts : list string) : string :=
  String.concat sep parts.

Definition cons_char (c : ascii) (parts : list string) : list string :=
  match parts with
  | [] => [String c EmptyString]
  | p :: ps => String c p :: ps
  end.

(** [s.split()]: the maximal runs of characters that are not white space. *)
Fixpoint split (s : string) : list string :=
  match s with
  | EmptyString => []
  | String c rest =>
      if Char.is_space c then split rest
      else match rest with
           | EmptyString => [String c EmptyString]
           | String d _ =>
               if Char.is_space d then String c EmptyString :: split rest
               else cons_char c (split rest)
           end
  end.

(** [s.splitlines()]: a line ends at a boundary character, [\r\n] counting
    as one boundary; the boundaries are dropped, and what follows the last
    boundary is a line only when it is not empty. *)
Fixpoint splitlines (s : string) : list string :=
  match s with
  | EmptyString => []
  | String c rest =>
      if Char.is_line_boundary c then
        EmptyString ::
          match rest with
          | String d rest' =>
              if Ascii.eqb c Char.CR && Ascii.eqb d Char.LF
              then splitlines rest' else splitlines rest
          | EmptyString => []
          end
      else cons_char c (splitlines rest)
  end.

(** Reading a file in text mode translates [\r\n] and a lone [\r] into
    [\n] (universal newlines). *)
Fixpoint universal_newlines (s : string) : string :=
  match s with
  | EmptyString => EmptyString
  | String c rest =>
      if Ascii.eqb c Char.CR then
        String Char.LF
          match rest with
          | String d rest' =>
              if Ascii.eqb d Char.LF then universal_newlines rest'
              else universal_newlines rest
          | EmptyString => EmptyString
          end
      else String c (universal_newlines rest)
  end.

End Py.

(** ** The task file and the program's effects *)

Definition NL : string := String Char.LF EmptyString.
Definition HEADER : string := "# Task List".
Definition TASK_PREFIX : string := "- [".

(** The state of [tasks.md]: absent, present but not readable as text
    (reading raises [OSError] or [UnicodeDecodeError]), or present with the
    given content. *)
Inductive file : Type :=
| Missing
| Unreadable
| Readable (content : string).

(** [writable] tells whether opening the file for writing succeeds; when it
    does not, the write raises [OSError] and the file is left as it was. *)
Record store : Type := Store { disk : file; writable : bool }.

(** A computation threads the store; [None] is an exception that nothing in
    the program catches. *)
Definition M (A : Type) : Type := store -> option (A * store).

Definition ret {A} (a : A) : M A := fun st => Some (a, st).

Definition bind {A B} (m : M A) (k : A -> M B) : M B :=
  fun st => match m st with
            | Some (a, st') => k a st'
            | None => None
            end.

Definition uncaught {A} : M A := fun _ => None.

Notation "'let*' x ':=' m 'in' k" := (bind m (fun x => k))
  (at level 10, x name, m at level 100, k at level 200).

(** [Path(TASK_FILE).exists()] *)
Definition path_exists : M bool :=
  fun st => Some (match disk st with Missing => false | _ => true end, st).

(** [Path(TASK_FILE).read_text()]; [None] stands for the exception, which
    every caller catches. *)
Definition read_text : M (option string) :=
  fun st => Some (match disk st with
                  | Readable c => Some (Py.universal_newlines c)
                  | _ => None
                  end, st).

(** [Path(TASK_FILE).write_text(s)]; [false] stands for [OSError].  A write
    that succeeds leaves a file that can be read: a file that stays
    unreadable after it is written, for lack of read permission, is not
    modelled. *)
Definition write_text (s : string) : M bool :=
  fun st => if writable st
            then Some (true, Store (Readable s) true)
            else Some (false, st).

(** Opening in mode ["a"] and writing [s]; [false] stands for [OSError]. *)
Definition append_text (s : string) : M bool :=
  fun st => if writable st
            then Some (true,
                       Store (match disk st with
                              | Readable c => Readable (c ++ s)
                              | Missing => Readable s
                              | Unreadable => Unreadable
                              end) true)
            else Some (false, st).

Definition is_task_line (l : string) : bool := Py.startswith TASK_PREFIX l.

(** ** Storage helpers *)

(** A write outside any [try]: a failure ends the program. *)
Definition write_or_raise (s : string) : M unit :=
  let* ok := write_text s in
  if ok then ret tt else uncaught.

Definition ensure_task_file : M unit :=
  let* present := path_exists in
  if negb present then write_or_raise (HEADER ++ NL ++ NL)
  else
    let* r := read_text in
    match r with
    | Some text =>
        let content := Py.strip text in
        if String.eqb content "" || negb (Py.startswith HEADER content) then
          let existing_tasks := List.filter is_task_line (Py.splitlines content) in
          let new_content :=
            (HEADER ++ NL ++ NL)
            ++ match existing_tasks with
               | [] => ""
               | _ => Py.join NL existing_tasks ++ NL
               end in
          let* ok := write_text new_content in
          if ok then ret tt else write_or_raise (HEADER ++ NL ++ NL)
        else ret tt
    | None => write_or_raise (HEADER ++ NL ++ NL)
    end.

Definition load_tasks : M (list string) :=
  let* r := read_text in
  match r with
  | Some text => ret (Py.splitlines text)
  | None => let* _ := ensure_task_file in ret [HEADER; ""]
  end.

Definition save_tasks (lines : list string) : M bool :=
  write_text (Py.join NL lines ++ NL).

(** ** Core operations *)

(** The messages the operations return, one constructor per message. *)
Inductive status : Type :=
| EmptyInput                (* Task cannot be empty. *)
| Added (text : string)     (* Added: <text> *)
| AddFailed                 (* Failed to add task (file error). *)
| NotFound                  (* Task not found. *)
| AlreadyCompleted          (* Already completed. *)
| Checked (index : Z)       (* Checked off task #<index> *)
| SaveFailed                (* Failed to save changes. *)
| Deleted (text : string)   (* Deleted: <text> *)
| DeleteFailed              (* Failed to delete task. *)
| ClearedDone (n : nat)     (* Cleared <n> completed task(s). *)
| ClearFailed               (* Failed to clear tasks. *)
| NoTasks                   (* No tasks to clear. *)
| ClearedAll (n : nat)      (* Cleared all <n> task(s). *)
| InvalidNumber             (* Invalid number. *)
| Cancelled                 (* Cancelled. *)
| UnknownCommand.           (* Unknown command. *)

(** A row of the listing: the number shown, whether the row is rendered as
    completed, and the line itself. *)
Record listed : Type := Listed { number : nat; completed : bool; line : string }.

Definition looks_completed (l : string) : bool := Py.contains "[x]" (Py.lower l).

Definition list_tasks : M (list listed) :=
  let* lines := load_tasks in
  let tasks := List.filter is_task_line lines in
  ret (imap (fun i l => Listed (i + 1) (looks_completed l) l) tasks).

Definition add_task (task_text : string) : M status :=
  if String.eqb (Py.strip task_text) "" then ret EmptyInput
  else
    let* ok := append_text ("- [ ] " ++ Py.strip task_text ++ NL) in
    if ok then ret (Added (Py.strip task_text)) else ret AddFailed.

(** [[i for i, l in enumerate(lines) if l.startswith("- [")]] *)
Definition task_positions (lines : list string) : list nat :=
  List.map fst (List.filter (fun p => is_task_line (snd p)) (imap pair lines)).

Definition out_of_range (index : Z) (task_lines : list nat) : bool :=
  (index <? 1)%Z || (index >? Z.of_nat (length task_lines))%Z.

(** [lines[task_lines[index - 1]]] together with its position; an index
    outside a list raises [IndexError]. *)
Definition target (lines : list string) (task_lines : list nat) (index : Z)
  : M (nat * string) :=
  match task_lines !! Z.to_nat (index - 1) with
  | Some real_idx =>
      match lines !! real_idx with
      | Some l => ret (real_idx, l)
      | None => uncaught
      end
  | None => uncaught
  end.

Definition check_task (index : Z) : M status :=
  let* lines := load_tasks in
  let task_lines := task_positions lines in
  if out_of_range index task_lines then ret NotFound
  else
    let* t := target lines task_lines index in
    let (real_idx, l) := (t : nat * string) in
    if looks_completed l then ret AlreadyCompleted
    else
      let* ok := save_tasks (<[real_idx := Py.replace_first "[ ]" "[x]" l]> lines) in
      if ok then ret (Checked index) else ret SaveFailed.

Definition strip_markers (l : string) : string :=
  Py.strip (Py.remove_all "- [X]" (Py.remove_all "- [x]" (Py.remove_all "- [ ]" l))).

Definition delete_task (index : Z) : M status :=
  let* lines := load_tasks in
  let task_lines := task_positions lines in
  if out_of_range index task_lines then ret NotFound
  else
    let* t := target lines task_lines index in
    let (real_idx, l) := (t : nat * string) in
    let task_text := strip_markers l in
    let* ok := save_tasks (delete real_idx lines) in
    if ok then ret (Deleted task_text) else ret DeleteFailed.

Definition is_done_line (l : string) : bool := Py.startswith "- [x]" l.

Definition clear_done_tasks : M status :=
  let* lines := load_tasks in
  let original_count := length (List.filter is_done_line lines) in
  let new_lines := List.filter (fun l => negb (is_done_line l)) lines in
  let* ok := save_tasks new_lines in
  if ok then ret (ClearedDone original_count) else ret ClearFailed.

Definition clear_all_tasks : M status :=
  let* lines := load_tasks in
  let task_count := length (List.filter is_task_line lines) in
  let new_lines := List.filter (fun l => negb (is_task_line l)) lines in
  if Nat.eqb task_count 0 then ret NoTasks
  else
    let* ok := save_tasks new_lines in
    if ok then ret (ClearedAll task_count) else ret ClearFailed.

(** ** The interactive shell *)

(** What one call of [input] yields. *)
Inductive input_event : Type :=
| Line (text : string)
| EndOfInput          (* EOFError *)
| Interrupt.          (* KeyboardInterrupt *)

(** One redraw: the rows listed and the status shown under them.  Colours,
    the title block and the command help are fixed text and are left out. *)
Record screen : Type := Screen { rows : list listed; shown : option status }.

Definition redraw (status_msg : option status) : M screen :=
  let* tasks := list_tasks in
  ret (Screen tasks status_msg).

(** [int(token)] for a token without white space: an optional sign, then
    decimal digits, single underscores allowed between digits.  CPython
    refuses, with [ValueError], a token of more than 4300 digits, the sign
    and the underscores not counted. *)
Fixpoint digits_value (acc : Z) (after_digit : bool) (s : string) : option Z :=
  match s with
  | EmptyString => if after_digit then Some acc else None
  | String c rest =>
      if Char.is_digit c
      then digits_value (10 * acc + Z.of_N (Char.code c - 48)) true rest
      else if Ascii.eqb c "_"%char && after_digit
           then digits_value acc false rest
           else None
  end.

Fixpoint digit_count (s : string) : N :=
  match s with
  | EmptyString => 0%N
  | String c rest => ((if Char.is_digit c then 1 else 0) + digit_count rest)%N
  end.

Definition MAX_STR_DIGITS : N := 4300%N.

Definition py_int (token : string) : option Z :=
  if (MAX_STR_DIGITS <? digit_count token)%N then None
  else
    match token with
    | String "+"%char rest => digits_value 0 false rest
    | String "-"%char rest => option_map Z.opp (digits_value 0 false rest)
    | _ => digits_value 0 false token
    end.

(** [int(command.split()[1])] followed by [op]; [ValueError] and
    [IndexError] both give the "Invalid number" message. *)
Definition with_number (command : string) (op : Z -> M status) : M status :=
  match Py.split command !! 1%nat with
  | Some token =>
      match py_int token with
      | Some idx => op idx
      | None => ret InvalidNumber
      end
  | None => ret InvalidNumber
  end.

(** The confirmation step of [clearall], given what the second [input]
    yields. *)
Definition confirm_destructive (answer : input_event) : M status :=
  match answer with
  | Line text =>
      let confirm := Py.lower (Py.strip text) in
      if String.eqb confirm "y" then clear_all_tasks else ret Cancelled
  | EndOfInput | Interrupt => ret Cancelled
  end.

(** The loop of [run_shell], one iteration per element of [inputs]; an
    exhausted input behaves as end of input.  The result is the sequence of
    screens drawn.  The pause after an error message is not modelled, and an
    [Interrupt] is one that [input] raises: an interrupt during the pause or
    while the screen is drawn, which nothing catches, is not modelled. *)
Fixpoint shell_loop (inputs : list input_event) (status_msg : option status)
  : M (list screen) :=
  let* scr := redraw status_msg in
  match inputs with
  | [] | EndOfInput :: _ | Interrupt :: _ => ret [scr]
  | Line text :: rest =>
      let command := Py.lower (Py.strip text) in
      let continue := fun (st : option status) =>
        let* scrs := shell_loop rest st in ret (scr :: scrs) in
      if String.eqb command "exit" then ret [scr]
      else if Py.startswith "add " command then
        let task := Py.join " " (tl (Py.split command)) in
        let* st := add_task task in continue (Some st)
      else if Py.startswith "check " command then
        let* st := with_number command check_task in continue (Some st)
      else if Py.startswith "delete " command then
        let* st := with_number command delete_task in continue (Some st)
      else if String.eqb command "clear" then
        let* st := clear_done_tasks in continue (Some st)
      else if String.eqb command "clearall" then
        match rest with
        | answer :: rest' =>
            let* st := confirm_destructive answer in
            let* scrs := shell_loop rest' (Some st) in ret (scr :: scrs)
        | [] =>
            let* st := confirm_destructive EndOfInput in continue (Some st)
        end
      else if String.eqb command "list" then continue None
      else continue (Some UnknownCommand)
  end.

Definition run_shell (inputs : list input_event) : M (list screen) :=
  let* _ := ensure_task_file in
  shell_loop inputs None.

(** ** One-shot mode *)

Inductive output : Type :=
| Interactive (screens : list screen)
| Printed (st : status)
| Listing (tasks : list listed)     (* empty: "No tasks yet." *)
| Help
| UnknownArgument (arg : string).

(** [main], given [sys.argv[1:]] and what the terminal will supply. *)
Definition main (args : list string) (inputs : list input_event) : M output :=
  let* _ := ensure_task_file in
  match args with
  | [] => let* scrs := run_shell inputs in ret (Interactive scrs)
  | arg0 :: rest =>
      if String.eqb arg0 "add" then
        let* st := add_task (Py.join " " rest) in ret (Printed st)
      else if String.eqb arg0 "list" then
        let* tasks := list_tasks in ret (Listing tasks)
      else if String.eqb arg0 "help" || String.eqb arg0 "-h"
              || String.eqb arg0 "--help" then ret Help
      else ret (UnknownArgument arg0)
  end.

(** ** Views of a store used in the statements *)

(** The content of the file when it can be read. *)
Definition content_of (st : store) : option string :=
  match disk st with
  | Readable c => Some c
  | _ => None
  end.

(** The lines [load_tasks] returns for a file with content [c]. *)
Definition lines_of (c : string) : list string :=
  Py.splitlines (Py.universal_newlines c).

(** The task lines of a list of lines, in file order: the line of rank [i]
    is the one at position [i - 1]. *)
Definition tasks_of (lines : list string) : list string :=
  List.filter is_task_line lines.

Definition other_lines (lines : list string) : list string :=
  List.filter (fun l => negb (is_task_line l)) lines.

(** The content [save_tasks] writes. *)
Definition saved (lines : list string) : string := Py.join NL lines ++ NL.

Definition on_disk (c : string) : store := Store (Readable c) true.

(** A string that [splitlines] would not cut. *)
Fixpoint unbroken (s : string) : bool :=
  match s with
  | EmptyString => true
  | String c rest => negb (Char.is_line_boundary c) && unbroken rest
  end.

(** The positions of the task lines, counted from [n]. *)
Fixpoint positions_from (n : nat) (lines : list string) : list nat :=
  match lines with
  | [] => []
  | l :: ls =>
      if is_task_line l then n :: positions_from (S n) ls
      else positions_from (S n) ls
  end.

(** The task line at rank [i] of the lines, ranks starting at 1. *)
Definition task_at (lines : list string) (i : Z) : option string :=
  if (i <? 1)%Z then None else tasks_of lines !! Z.to_nat (i - 1).

(** What [check_task] and [delete_task] work on after their bounds test. *)
Record located (lines : list string) (i : Z) (k : nat) (l : string) : Prop := {
  located_line : lines !! k = Some l;
  located_task : is_task_line l = true;
  located_rank : length (tasks_of (take k lines)) = Z.to_nat (i - 1);
  located_at : task_at lines i = Some l
}.

(** The marker with [x] inside the brackets, and a line that starts with
    it, a space and [text]. *)
Abbreviation marker x :=
  (String "-" (String " " (String "[" (String x "]")))).
Abbreviation marked x text :=
  (String "-" (String " " (String "[" (String x (String "]" (String " " text)))))).

(** ** Notions used by the statements *)

(** The answers that make [clearall] go ahead: a line that, trimmed and
    lower-cased, is [y]. *)
Definition confirms (answer : input_event) : bool :=
  match answer with
  | Line text => String.eqb (Py.lower (Py.strip text)) "y"
  | EndOfInput | Interrupt => false
  end.




(** Loading the file and saving what was loaded. *)
Definition save_loaded : M bool :=
  let* lines := load_tasks in save_tasks lines.

(** The five operations of the specification. *)
Inductive operation : Type :=
| OpAdd (text : string)
| OpCheck (index : Z)
| OpDelete (index : Z)
| OpClearCompleted
| OpClearAll.

Definition run_operation (op : operation) : M status :=
  match op with
  | OpAdd text => add_task text
  | OpCheck index => check_task index
  | OpDelete index => delete_task index
  | OpClearCompleted => clear_done_tasks
  | OpClearAll => clear_all_tasks
  end.



(** The text holds none of the three checkbox markers. *)
Definition marker_free (text : string) : bool :=
  negb (Py.contains "- [ ]" text)
  && negb (Py.contains "- [x]" text)
  && negb (Py.contains "- [X]" text).


(** ** Sample files *)

Module Sample.

(** The file [ensure_task_file] creates. *)
Definition fresh : string := HEADER ++ NL ++ NL.

(** A file with the header, a blank line and the given lines. *)
Definition file (ls : list string) : string :=
  fresh ++ String.concat "" (List.map (fun l => l ++ NL) ls).

End Sample.

(** ** Notions used by the further properties *)

(** The test [ensure_task_file] makes on a file it could read: the content,
    stripped, starts with the header. *)
Definition header_ok (c : string) : bool :=
  Py.startswith HEADER (Py.strip (Py.universal_newlines c)).

(** The task lines [ensure_task_file] keeps when it rewrites the file. *)
Definition salvaged (c : string) : list string :=
  List.filter is_task_line (Py.splitlines (Py.strip (Py.universal_newlines c))).

(** [load_tasks] can return: the file is readable, or it can be rewritten. *)
Definition can_load (st : store) : bool :=
  match disk st with
  | Readable _ => true
  | _ => writable st
  end.

Definition is_add (op : operation) : bool :=
  match op with
  | OpAdd _ => true
  | _ => false
  end.

(** Saving lines and loading them back. *)
Definition save_then_load (lines : list string) : M (list string) :=
  let* _ := save_tasks lines in load_tasks.



(** A string that is empty or all white space. *)
Fixpoint blank (s : string) : bool :=
  match s with
  | EmptyString => true
  | String c rest => Char.is_space c && blank rest
  end.

(** * Properties *)

(** ** Strings: induction two characters at a time *)

Lemma string_ind2 (P : string -> Prop) :
  P EmptyString ->
  (forall c, P (String c EmptyString)) ->
  (forall c d s, P s -> P (String d s) -> P (String c (String d s))) ->
  forall s, P s.
Proof.
  intros H0 H1 H2 s.
  enough (P s /\ forall c, P (String c s)) by tauto.
  induction s as [|d s [IHs IHc]]; split; auto.
Qed.

Lemma append_assoc (a b c : string) : (a ++ b) ++ c = a ++ (b ++ c).
Proof. induction a; simpl; congruence. Qed.

(** ** Prefixes *)

Lemma startswith_nil s : Py.startswith "" s = true.
Proof. now destruct s. Qed.

Lemma startswith_cons a p b s :
  Py.startswith (String a p) (String b s) = Ascii.eqb a b && Py.startswith p s.
Proof.
  unfold Py.startswith. cbn [String.prefix].
  destruct (ascii_dec a b) as [->|H].
  - now rewrite Ascii.eqb_refl.
  - apply Ascii.eqb_neq in H. now rewrite H.
Qed.

Lemma startswith_empty a p : Py.startswith (String a p) "" = false.
Proof. reflexivity. Qed.

Lemma startswith_app p s : Py.startswith p (p ++ s) = true.
Proof.
  induction p as [|a p IH]; [apply startswith_nil|].
  change (String a p ++ s) with (String a (p ++ s)).
  now rewrite startswith_cons, Ascii.eqb_refl, IH.
Qed.

(** ** Lines *)

Lemma splitlines_plain c s :
  Char.is_line_boundary c = false ->
  Py.splitlines (String c s) = Py.cons_char c (Py.splitlines s).
Proof. intros H. simpl. now rewrite H. Qed.

Lemma splitlines_boundary c s :
  Char.is_line_boundary c = true -> c <> Char.CR ->
  Py.splitlines (String c s) = "" :: Py.splitlines s.
Proof.
  intros H Hc. simpl. rewrite H.
  apply Ascii.eqb_neq in Hc. rewrite Hc. now destruct s.
Qed.

Lemma splitlines_crlf s :
  Py.splitlines (String Char.CR (String Char.LF s)) = "" :: Py.splitlines s.
Proof. reflexivity. Qed.

Lemma startswith_newline d s :
  Py.startswith NL (String d s) = Ascii.eqb d Char.LF.
Proof.
  unfold NL. rewrite startswith_cons, startswith_nil, andb_true_r.
  apply Ascii.eqb_sym.
Qed.

Lemma splitlines_cr s :
  Py.startswith NL s = false ->
  Py.splitlines (String Char.CR s) = "" :: Py.splitlines s.
Proof.
  intros H. destruct s as [|d s]; [reflexivity|].
  rewrite startswith_newline in H.
  change (Py.splitlines (String Char.CR (String d s)))
    with ("" :: if Ascii.eqb d Char.LF then Py.splitlines s
                else Py.splitlines (String d s)).
  now rewrite H.
Qed.

Lemma splitlines_newline s : Py.splitlines (NL ++ s) = "" :: Py.splitlines s.
Proof. apply splitlines_boundary; [reflexivity | discriminate]. Qed.


Lemma unbroken_cons_char c ls :
  Char.is_line_boundary c = false ->
  Forall (fun l => unbroken l = true) ls ->
  Forall (fun l => unbroken l = true) (Py.cons_char c ls).
Proof.
  intros Hc Hls. destruct Hls as [|l ls Hl Hls]; simpl.
  - constructor; [|constructor]. simpl. now rewrite Hc.
  - constructor; [|assumption]. simpl. now rewrite Hc.
Qed.

(** Every line [splitlines] returns is free of boundary characters. *)
Lemma splitlines_unbroken s :
  Forall (fun l => unbroken l = true) (Py.splitlines s).
Proof.
  induction s as [| c | c d s IHs IHd] using string_ind2.
  - constructor.
  - simpl. destruct (Char.is_line_boundary c) eqn:Hc.
    + repeat constructor.
    + repeat constructor. simpl. now rewrite Hc.
  - destruct (Char.is_line_boundary c) eqn:Hc.
    + change (Py.splitlines (String c (String d s)))
        with (if Char.is_line_boundary c then
                "" :: (if Ascii.eqb c Char.CR && Ascii.eqb d Char.LF
                       then Py.splitlines s else Py.splitlines (String d s))
              else Py.cons_char c (Py.splitlines (String d s))).
      rewrite Hc. constructor; [reflexivity|].
      now destruct (Ascii.eqb c Char.CR && Ascii.eqb d Char.LF).
    + rewrite splitlines_plain by assumption.
      now apply unbroken_cons_char.
Qed.

(** Universal newlines do not change what [splitlines] returns. *)
Lemma splitlines_universal s :
  Py.splitlines (Py.universal_newlines s) = Py.splitlines s.
Proof.
  induction s as [| c | c d s IHs IHd] using string_ind2.
  - reflexivity.
  - destruct (Ascii.eqb_spec c Char.CR) as [->|Hc]; [reflexivity|].
    simpl. apply Ascii.eqb_neq in Hc. now rewrite Hc.
  - destruct (Ascii.eqb_spec c Char.CR) as [->|Hc].
    + destruct (Ascii.eqb_spec d Char.LF) as [->|Hd].
      * change (Py.universal_newlines (String Char.CR (String Char.LF s)))
          with (NL ++ Py.universal_newlines s).
        now rewrite splitlines_newline, splitlines_crlf, IHs.
      * change (Py.universal_newlines (String Char.CR (String d s)))
          with (NL ++ if Ascii.eqb d Char.LF then Py.universal_newlines s
                      else Py.universal_newlines (String d s)).
        apply Ascii.eqb_neq in Hd. rewrite Hd.
        rewrite splitlines_newline, IHd.
        symmetry. apply splitlines_cr. now rewrite startswith_newline.
    + change (Py.universal_newlines (String c (String d s)))
        with (if Ascii.eqb c Char.CR
              then NL ++ (if Ascii.eqb d Char.LF then Py.universal_newlines s
                          else Py.universal_newlines (String d s))
              else String c (Py.universal_newlines (String d s))).
      pose proof Hc as Hc'. apply Ascii.eqb_neq in Hc'. rewrite Hc'.
      destruct (Char.is_line_boundary c) eqn:Hb.
      * now rewrite !splitlines_boundary, IHd by assumption.
      * now rewrite !splitlines_plain, IHd by assumption.
Qed.

Lemma lines_of_splitlines c : lines_of c = Py.splitlines c.
Proof. apply splitlines_universal. Qed.

Lemma lines_of_unbroken c : Forall (fun l => unbroken l = true) (lines_of c).
Proof. rewrite lines_of_splitlines. apply splitlines_unbroken. Qed.

(** What [save_tasks] writes, line by line. *)
Lemma saved_one l : saved [l] = l ++ NL.
Proof. reflexivity. Qed.

Lemma saved_cons l l' ls : saved (l :: l' :: ls) = l ++ NL ++ saved (l' :: ls).
Proof.
  unfold saved, Py.join.
  change (String.concat NL (l :: l' :: ls))
    with (l ++ NL ++ String.concat NL (l' :: ls)).
  now rewrite !append_assoc.
Qed.

Lemma splitlines_unbroken_line l rest :
  unbroken l = true ->
  Py.splitlines (l ++ NL ++ rest) = l :: Py.splitlines rest.
Proof.
  induction l as [|c l IH]; intros Hl.
  - apply splitlines_newline.
  - simpl in Hl. apply andb_prop in Hl as [Hc Hl].
    apply negb_true_iff in Hc.
    change (String c l ++ NL ++ rest) with (String c (l ++ NL ++ rest)).
    rewrite splitlines_plain by assumption. now rewrite IH.
Qed.

(** Reading back what [save_tasks] wrote gives the lines that were saved;
    an empty list of lines comes back as one empty line. *)
Lemma splitlines_saved ls :
  Forall (fun l => unbroken l = true) ls ->
  Py.splitlines (saved ls) = match ls with [] => [""] | _ => ls end.
Proof.
  induction 1 as [|l ls Hl Hls IH]; [reflexivity|].
  destruct ls as [|l' ls].
  - rewrite saved_one.
    replace (l ++ NL) with (l ++ NL ++ "") by reflexivity.
    now rewrite splitlines_unbroken_line.
  - rewrite saved_cons, splitlines_unbroken_line by assumption.
    now rewrite IH.
Qed.

Lemma lines_of_saved ls :
  Forall (fun l => unbroken l = true) ls ->
  lines_of (saved ls) = match ls with [] => [""] | _ => ls end.
Proof. intros H. rewrite lines_of_splitlines. now apply splitlines_saved. Qed.

(** ** Positions and ranks of task lines *)

Lemma enumerate_positions (f : nat -> nat) (lines : list string) :
  List.map fst
    (List.filter (fun p => is_task_line (snd p)) (imap (fun i l => (f i, l)) lines))
  = match lines with
    | [] => []
    | l :: ls =>
        (if is_task_line l then [f 0%nat] else [])
        ++ List.map fst
             (List.filter (fun p => is_task_line (snd p))
                (imap (fun i l => (f (S i), l)) ls))
    end%list.
Proof.
  destruct lines as [|l ls]; [reflexivity|].
  simpl. now destruct (is_task_line l).
Qed.

Lemma positions_from_enumerate (n : nat) (lines : list string) :
  List.map fst
    (List.filter (fun p => is_task_line (snd p)) (imap (fun i l => (n + i, l)) lines))
  = positions_from n lines.
Proof.
  revert n. induction lines as [|l ls IH]; intros n; [reflexivity|].
  rewrite (enumerate_positions (fun i => n + i)). simpl positions_from.
  replace (imap (fun i l0 => (n + S i, l0)) ls)
    with (imap (fun i l0 => (S n + i, l0)) ls).
  - rewrite IH, Nat.add_0_r. now destruct (is_task_line l).
  - apply imap_ext. intros i x _. f_equal. lia.
Qed.

Lemma task_positions_from (lines : list string) :
  task_positions lines = positions_from 0 lines.
Proof. apply (positions_from_enumerate 0). Qed.

Lemma positions_from_length n lines :
  length (positions_from n lines) = length (tasks_of lines).
Proof.
  revert n. induction lines as [|l ls IH]; intros n; [reflexivity|].
  simpl. destruct (is_task_line l); simpl; now rewrite IH.
Qed.

(** The [j]-th position listed is the position of a task line, and [j] task
    lines come before it. *)
Lemma positions_from_lookup n lines j k :
  positions_from n lines !! j = Some k ->
  exists i l,
    k = n + i /\ lines !! i = Some l /\ is_task_line l = true
    /\ length (tasks_of (take i lines)) = j.
Proof.
  revert n j. induction lines as [|l ls IH]; intros n j H; [discriminate|].
  simpl in H. destruct (is_task_line l) eqn:Hl.
  - destruct j as [|j]; simpl in H.
    + injection H as <-. exists 0, l.
      split; [lia|]. split; [reflexivity|]. split; [exact Hl|reflexivity].
    + destruct (IH _ _ H) as (i & l' & -> & Hi & Hl' & Hj).
      exists (S i), l'.
      split; [lia|]. split; [exact Hi|]. split; [exact Hl'|].
      simpl. rewrite Hl. simpl. now rewrite Hj.
  - destruct (IH _ _ H) as (i & l' & -> & Hi & Hl' & Hj).
    exists (S i), l'.
    split; [lia|]. split; [exact Hi|]. split; [exact Hl'|].
    simpl. now rewrite Hl.
Qed.

Lemma tasks_of_app (a b : list string) :
  tasks_of (a ++ b)%list = (tasks_of a ++ tasks_of b)%list.
Proof. apply List.filter_app. Qed.


Lemma out_of_range_false lines i :
  out_of_range i (task_positions lines) = false <->
  (1 <= i <= Z.of_nat (length (tasks_of lines)))%Z.
Proof.
  unfold out_of_range.
  rewrite task_positions_from, positions_from_length, orb_false_iff.
  rewrite Z.ltb_ge, Z.gtb_ltb, Z.ltb_ge. tauto.
Qed.

Lemma task_at_Some lines i l :
  task_at lines i = Some l ->
  (1 <= i <= Z.of_nat (length (tasks_of lines)))%Z.
Proof.
  unfold task_at. destruct (i <? 1)%Z eqn:Hi; [discriminate|].
  intros H. apply lookup_lt_Some in H. apply Z.ltb_ge in Hi. lia.
Qed.

Lemma target_located lines i st :
  (1 <= i <= Z.of_nat (length (tasks_of lines)))%Z ->
  exists k l,
    target lines (task_positions lines) i st = Some ((k, l), st)
    /\ located lines i k l.
Proof.
  intros Hi. unfold target. rewrite task_positions_from.
  destruct (positions_from 0 lines !! Z.to_nat (i - 1)) as [k|] eqn:Hk.
  - destruct (positions_from_lookup _ _ _ _ Hk) as (k' & l & -> & Hl & Ht & Hr).
    simpl. rewrite Hl. exists k', l. split; [reflexivity|].
    split; auto.
    unfold task_at. replace (i <? 1)%Z with false by (symmetry; apply Z.ltb_ge; lia).
    rewrite <- (take_drop_middle _ _ _ Hl) at 1.
    rewrite tasks_of_app. simpl. rewrite Ht.
    rewrite <- Hr. now apply list_lookup_middle.
  - apply lookup_ge_None_1 in Hk. rewrite positions_from_length in Hk. lia.
Qed.

(** Deleting the line of a task removes that task from the task list and
    touches no other line. *)
Lemma tasks_of_delete lines k l :
  lines !! k = Some l -> is_task_line l = true ->
  tasks_of (delete k lines) = delete (length (tasks_of (take k lines))) (tasks_of lines).
Proof.
  intros Hl Ht.
  rewrite <- (take_drop_middle _ _ _ Hl) at 3.
  rewrite delete_take_drop, !tasks_of_app. simpl. rewrite Ht.
  now rewrite delete_middle.
Qed.



(** ** Replacing the first marker *)

Lemma replace_first_eq old new s :
  Py.replace_first old new s =
  if Py.startswith old s then new ++ Py.drop (String.length old) s
  else match s with
       | EmptyString => EmptyString
       | String c rest => String c (Py.replace_first old new rest)
       end.
Proof. now destruct s. Qed.

Lemma contains_eq sub s :
  Py.contains sub s =
  Py.startswith sub s
  || match s with
     | EmptyString => false
     | String _ rest => Py.contains sub rest
     end.
Proof. now destruct s. Qed.


(** Once the first [[ ]] has become [[x]], the line counts as completed. *)
Lemma replace_first_completes l :
  Py.contains "[ ]" l = true ->
  looks_completed (Py.replace_first "[ ]" "[x]" l) = true.
Proof.
  unfold looks_completed.
  induction l as [|c l IH]; intros H; [discriminate|].
  rewrite replace_first_eq.
  destruct (Py.startswith "[ ]" (String c l)) eqn:Hp.
  - set (t := Py.drop _ _).
    change (Py.lower ("[x]" ++ t)) with ("[x]" ++ Py.lower t).
    now rewrite contains_eq, startswith_app.
  - rewrite contains_eq, Hp in H. simpl in H.
    simpl Py.lower. rewrite contains_eq, (IH H). apply orb_true_r.
Qed.

Lemma unbroken_app a b :
  unbroken (a ++ b) = unbroken a && unbroken b.
Proof.
  induction a as [|c a IH]; [reflexivity|].
  simpl. now rewrite IH, andb_assoc.
Qed.

Lemma unbroken_drop n s : unbroken s = true -> unbroken (Py.drop n s) = true.
Proof.
  revert s. induction n as [|n IH]; intros [|c s] H; try assumption.
  simpl in *. apply andb_prop in H as [_ H]. now apply IH.
Qed.

Lemma replace_first_unbroken l :
  unbroken l = true -> unbroken (Py.replace_first "[ ]" "[x]" l) = true.
Proof.
  induction l as [|c l IH]; intros H; [reflexivity|].
  rewrite replace_first_eq.
  destruct (Py.startswith "[ ]" (String c l)).
  - rewrite unbroken_app, unbroken_drop by assumption. reflexivity.
  - simpl in *. apply andb_prop in H as [Hc H]. now rewrite Hc, IH.
Qed.

Lemma replace_first_skip old new c s :
  Py.startswith old (String c s) = false ->
  Py.replace_first old new (String c s) = String c (Py.replace_first old new s).
Proof. intros H. now rewrite replace_first_eq, H. Qed.

Lemma startswith_head_ne a p c s :
  Ascii.eqb a c = false -> Py.startswith (String a p) (String c s) = false.
Proof. intros H. now rewrite startswith_cons, H. Qed.

Lemma startswith_head a c s : Py.startswith (String a "") (String c s) = Ascii.eqb a c.
Proof. now rewrite startswith_cons, startswith_nil, andb_true_r. Qed.

(** The three characters that make a line a task line are not touched. *)
Lemma replace_first_task_line l :
  is_task_line l = true ->
  is_task_line (Py.replace_first "[ ]" "[x]" l) = true.
Proof.
  unfold is_task_line, TASK_PREFIX.
  intros H.
  destruct l as [|c1 [|c2 [|c3 l]]];
    rewrite ?startswith_cons, ?startswith_empty, ?andb_false_r in H;
    try discriminate.
  apply andb_prop in H as [H1 H]. apply andb_prop in H as [H2 H].
  apply andb_prop in H as [H3 _].
  apply Ascii.eqb_eq in H1, H2, H3. subst c1 c2 c3.
  rewrite (replace_first_skip _ _ "-") by (now apply startswith_head_ne).
  rewrite (replace_first_skip _ _ " ") by (now apply startswith_head_ne).
  do 2 rewrite startswith_cons, Ascii.eqb_refl, andb_true_l.
  rewrite replace_first_eq.
  destruct (Py.startswith "[ ]" (String "[" l)).
  - set (t := Py.drop _ _).
    change ("[x]" ++ t) with (String "[" ("x]" ++ t)).
    now rewrite startswith_head.
  - now rewrite startswith_head.
Qed.

(** ** The operations on a readable file *)

Lemma load_tasks_readable c w :
  load_tasks (Store (Readable c) w) = Some (lines_of c, Store (Readable c) w).
Proof. reflexivity. Qed.

Lemma save_tasks_writable ls d :
  save_tasks ls (Store d true) = Some (true, on_disk (saved ls)).
Proof. reflexivity. Qed.

Lemma check_task_out_of_range c w i :
  ~ (1 <= i <= Z.of_nat (length (tasks_of (lines_of c))))%Z ->
  check_task i (Store (Readable c) w) = Some (NotFound, Store (Readable c) w).
Proof.
  intros Hi. unfold check_task, bind. rewrite load_tasks_readable.
  destruct (out_of_range i (task_positions (lines_of c))) eqn:Ho; [reflexivity|].
  now apply out_of_range_false in Ho.
Qed.

Lemma check_task_in_range c w i :
  (1 <= i <= Z.of_nat (length (tasks_of (lines_of c))))%Z ->
  exists k l,
    located (lines_of c) i k l
    /\ check_task i (Store (Readable c) w) =
       if looks_completed l then Some (AlreadyCompleted, Store (Readable c) w)
       else if w
            then Some (Checked i,
                       on_disk (saved (<[k := Py.replace_first "[ ]" "[x]" l]>
                                         (lines_of c))))
            else Some (SaveFailed, Store (Readable c) w).
Proof.
  intros Hi.
  destruct (target_located (lines_of c) i (Store (Readable c) w) Hi)
    as (k & l & Ht & Hloc).
  exists k, l. split; [assumption|].
  unfold check_task, bind. rewrite load_tasks_readable.
  apply out_of_range_false in Hi. rewrite Hi, Ht.
  destruct (looks_completed l); [reflexivity|].
  destruct w; reflexivity.
Qed.

Lemma delete_task_in_range c w i :
  (1 <= i <= Z.of_nat (length (tasks_of (lines_of c))))%Z ->
  exists k l,
    located (lines_of c) i k l
    /\ delete_task i (Store (Readable c) w) =
       if w then Some (Deleted (strip_markers l),
                       on_disk (saved (delete k (lines_of c))))
       else Some (DeleteFailed, Store (Readable c) w).
Proof.
  intros Hi.
  destruct (target_located (lines_of c) i (Store (Readable c) w) Hi)
    as (k & l & Ht & Hloc).
  exists k, l. split; [assumption|].
  unfold delete_task, bind. rewrite load_tasks_readable.
  apply out_of_range_false in Hi. rewrite Hi, Ht.
  destruct w; reflexivity.
Qed.

Lemma delete_task_out_of_range c w i :
  ~ (1 <= i <= Z.of_nat (length (tasks_of (lines_of c))))%Z ->
  delete_task i (Store (Readable c) w) = Some (NotFound, Store (Readable c) w).
Proof.
  intros Hi. unfold delete_task, bind. rewrite load_tasks_readable.
  destruct (out_of_range i (task_positions (lines_of c))) eqn:Ho; [reflexivity|].
  now apply out_of_range_false in Ho.
Qed.

(** ** What is read back after a save *)

Lemma tasks_of_saved ls :
  Forall (fun l => unbroken l = true) ls ->
  tasks_of (lines_of (saved ls)) = tasks_of ls.
Proof. intros H. rewrite lines_of_saved by assumption. now destruct ls. Qed.


Lemma Forall_filter_bool {A} (P : A -> Prop) (f : A -> bool) (l : list A) :
  Forall P l -> Forall P (List.filter f l).
Proof.
  induction 1 as [|x l Hx Hl IH]; simpl; [constructor|].
  destruct (f x); [constructor|]; assumption.
Qed.

Lemma tasks_of_insert lines k l l' :
  lines !! k = Some l -> is_task_line l = true -> is_task_line l' = true ->
  tasks_of (<[k := l']> lines)
  = <[length (tasks_of (take k lines)) := l']> (tasks_of lines).
Proof.
  intros Hl Ht Ht'.
  rewrite insert_take_drop by (eapply lookup_lt_Some; eassumption).
  set (A := take k lines). set (B := drop (S k) lines).
  replace (tasks_of lines) with (tasks_of (A ++ l :: B)%list)
    by (unfold A, B; now rewrite take_drop_middle).
  rewrite !tasks_of_app. simpl. rewrite Ht, Ht'.
  rewrite insert_app_r_alt by lia. now rewrite Nat.sub_diag.
Qed.

Lemma task_at_lookup lines i :
  (1 <= i)%Z -> task_at lines i = tasks_of lines !! Z.to_nat (i - 1).
Proof.
  intros Hi. unfold task_at.
  now replace (i <? 1)%Z with false by (symmetry; apply Z.ltb_ge; lia).
Qed.

(** * The claims *)

(** C1 (defect in the code).  The claim: [check] answers "already complete"
    exactly when the character inside the brackets of the target task is [x]
    or [X]; an incomplete task whose text contains [[x]] must be checkable.
    The code tests whether [[x]] occurs anywhere in the lower-cased line: on
    the task [- [ ] fix [x] bug], whose bracket holds a space, [check_task 1]
    answers "already completed" and leaves the file as it was. *)
Theorem check_task_refuses_incomplete_task_mentioning_marker :
  let l := "- [ ] fix [x] bug" in
  let st := on_disk (Sample.file [l]) in
  task_at (lines_of (Sample.file [l])) 1 = Some l
  /\ String.get 3 l = Some " "%char
  /\ is_done_line l = false
  /\ check_task 1 st = Some (AlreadyCompleted, st).
Proof. vm_compute. repeat split. Qed.

(** C7 as stated does not hold: on the task line [- [?] note] the first
    [check] succeeds, and so does the second. *)
Lemma check_twice_counterexample :
  ~ (forall (st st' : store) (i : Z),
        check_task i st = Some (Checked i, st') ->
        check_task i st' = Some (AlreadyCompleted, st')).
Proof.
  intros H.
  specialize (H (on_disk (Sample.file ["- [?] note"]))
                (on_disk (Sample.file ["- [?] note"])) 1%Z).
  vm_compute in H. specialize (H eq_refl). discriminate H.
Qed.

(** C7 (amended).  For every file and every rank [i] whose task line
    contains the marker [[ ]]: if [check i] succeeds, an immediately
    following [check i] answers "already completed" and leaves the file as
    the first one wrote it. *)
Theorem check_twice_already_completed
    (st st' : store) (c : string) (i : Z) (l : string) :
  content_of st = Some c ->
  task_at (lines_of c) i = Some l ->
  Py.contains "[ ]" l = true ->
  check_task i st = Some (Checked i, st') ->
  check_task i st' = Some (AlreadyCompleted, st').
Proof.
  intros Hc Hl Hm Hcheck.
  destruct st as [[| |c0] w]; try discriminate. injection Hc as ->.
  pose proof (task_at_Some _ _ _ Hl) as Hi.
  destruct (check_task_in_range c w i Hi) as (k & l0 & Hloc & Heq).
  destruct Hloc as [Hk Ht Hr Hat].
  rewrite Hl in Hat. injection Hat as <-.
  rewrite Heq in Hcheck.
  destruct (looks_completed l) eqn:Hdone; [discriminate|].
  destruct w; [|discriminate].
  injection Hcheck as <-.
  set (l' := Py.replace_first "[ ]" "[x]" l).
  set (lines' := <[k := l']> (lines_of c)).
  assert (Hl' : is_task_line l' = true) by now apply replace_first_task_line.
  assert (Hu : Forall (fun x => unbroken x = true) lines').
  { apply Forall_insert; [apply lines_of_unbroken|].
    apply replace_first_unbroken.
    pose proof (lines_of_unbroken c) as Hall.
    rewrite Forall_lookup in Hall. exact (Hall _ _ Hk). }
  assert (Hne : lines' <> []).
  { intros E. apply (f_equal length) in E. unfold lines' in E.
    rewrite length_insert in E. apply lookup_lt_Some in Hk. simpl in E. lia. }
  assert (Hback : lines_of (saved lines') = lines').
  { rewrite lines_of_saved by assumption. now destruct lines'. }
  assert (Htasks : tasks_of lines' = <[Z.to_nat (i - 1) := l']> (tasks_of (lines_of c))).
  { unfold lines'. rewrite (tasks_of_insert _ _ l) by assumption. now rewrite Hr. }
  assert (Hi' : (1 <= i <= Z.of_nat (length (tasks_of (lines_of (saved lines')))))%Z).
  { rewrite Hback, Htasks, length_insert. exact Hi. }
  destruct (check_task_in_range (saved lines') true i Hi') as (k' & l'' & Hloc' & Heq').
  destruct Hloc' as [_ _ _ Hat'].
  rewrite Hback, task_at_lookup, Htasks in Hat' by lia.
  rewrite list_lookup_insert_eq in Hat' by lia.
  injection Hat' as <-.
  unfold on_disk. rewrite Heq'. unfold l'. now rewrite replace_first_completes.
Qed.

Lemma check_twice_already_completed_witness :
  check_task 1 (on_disk (Sample.file ["- [x] a"]))
  = Some (AlreadyCompleted, on_disk (Sample.file ["- [x] a"])).
Proof.
  apply (check_twice_already_completed
           (on_disk (Sample.file ["- [ ] a"])) _ (Sample.file ["- [ ] a"]) 1 "- [ ] a");
    reflexivity.
Defined.




(** ** Removing the checkbox markers *)

Lemma remove_from_zero old c s :
  Py.remove_from old 0 (String c s) =
  if Py.startswith old (String c s)
  then Py.remove_from old (String.length old - 1) s
  else String c (Py.remove_from old 0 s).
Proof. reflexivity. Qed.

Lemma remove_all_absent old s :
  Py.contains old s = false -> Py.remove_all old s = s.
Proof.
  unfold Py.remove_all.
  induction s as [|c s IH]; intros H; [reflexivity|].
  rewrite contains_eq in H. apply orb_false_iff in H as [H1 H2].
  now rewrite remove_from_zero, H1, IH.
Qed.

Lemma startswith_app_l p q s :
  Py.startswith (p ++ q) s = true -> Py.startswith p s = true.
Proof.
  revert s. induction p as [|a p IH]; intros s H; [apply startswith_nil|].
  destruct s as [|b s]; [discriminate|].
  change (String a p ++ q) with (String a (p ++ q)) in H.
  rewrite startswith_cons in *.
  apply andb_prop in H as [H1 H2]. now rewrite H1, (IH _ H2).
Qed.

Lemma contains_longer_absent p q s :
  Py.contains p s = false -> Py.contains (p ++ q) s = false.
Proof.
  induction s as [|c s IH]; intros H;
    rewrite contains_eq in H; apply orb_false_iff in H as [H1 H2];
    rewrite contains_eq; apply orb_false_iff; split; auto;
    destruct (Py.startswith (p ++ q) _) eqn:E; auto;
    apply startswith_app_l in E; congruence.
Qed.

Lemma contains_skip a p c s :
  Ascii.eqb a c = false ->
  Py.contains (String a p) (String c s) = Py.contains (String a p) s.
Proof. intros H. now rewrite contains_eq, startswith_head_ne. Qed.

Lemma marker_absent_after_space (x : ascii) (text : string) :
  Py.contains (marker x) text = false ->
  Py.contains (marker x) (String " " text) = false.
Proof. intros H. now rewrite contains_skip by reflexivity. Qed.

Lemma remove_all_leading_marker (x : ascii) (text : string) :
  Py.contains (marker x) text = false ->
  Py.remove_all (marker x) (marked x text) = String " " text.
Proof.
  intros H. unfold Py.remove_all.
  rewrite remove_from_zero.
  replace (Py.startswith (marker x) (marked x text)) with true
    by (symmetry; apply (startswith_app (marker x) (String " " text))).
  change (Py.remove_from (marker x) (String.length (marker x) - 1)
            (String " " (String "[" (String x (String "]" (String " " text))))))
    with (Py.remove_all (marker x) (String " " text)).
  apply remove_all_absent. now apply marker_absent_after_space.
Qed.

Lemma remove_all_other_marker (x y : ascii) (text : string) :
  x <> y ->
  Py.contains (marker x) text = false ->
  Py.remove_all (marker x) (marked y text) = marked y text.
Proof.
  intros Hxy H. apply remove_all_absent.
  rewrite contains_eq. apply orb_false_iff. split.
  - rewrite !startswith_cons.
    apply Ascii.eqb_neq in Hxy. rewrite Hxy. now rewrite !andb_false_r.
  - rewrite contains_skip by reflexivity.
    rewrite contains_skip by reflexivity.
    destruct (Ascii.eqb_spec "-" y) as [<-|Hy].
    + rewrite contains_eq.
      replace (Py.startswith (marker x) (String "-" (String "]" (String " " text))))
        with false by (rewrite !startswith_cons; reflexivity).
      rewrite contains_skip by reflexivity.
      now apply (marker_absent_after_space x).
    + apply Ascii.eqb_neq in Hy.
      rewrite (contains_skip _ _ y) by assumption.
      rewrite contains_skip by reflexivity.
      now apply (marker_absent_after_space x).
Qed.

Lemma strip_leading_space text : Py.strip (String " " text) = Py.strip text.
Proof. reflexivity. Qed.

Lemma marker_free_absent text :
  marker_free text = true ->
  Py.contains "- [ ]" text = false
  /\ Py.contains "- [x]" text = false
  /\ Py.contains "- [X]" text = false.
Proof.
  unfold marker_free. intros H.
  apply andb_prop in H as [H H3]. apply andb_prop in H as [H1 H2].
  now rewrite negb_true_iff in H1, H2, H3.
Qed.

(** On a well-formed task line whose text holds none of the markers,
    stripping the markers leaves the trimmed text. *)
Lemma strip_markers_well_formed (l text : string) :
  marker_free text = true ->
  l = "- [ ] " ++ text \/ l = "- [x] " ++ text \/ l = "- [X] " ++ text ->
  strip_markers l = Py.strip text.
Proof.
  intros H. apply marker_free_absent in H as (H1 & H2 & H3).
  intros [-> | [-> | ->]]; unfold strip_markers;
    [ change ("- [ ] " ++ text) with (marked " " text)
    | change ("- [x] " ++ text) with (marked "x" text)
    | change ("- [X] " ++ text) with (marked "X" text) ].
  - rewrite (remove_all_leading_marker " " text H1).
    rewrite (remove_all_absent "- [x]" (String " " text))
      by now apply (marker_absent_after_space "x").
    rewrite (remove_all_absent "- [X]" (String " " text))
      by now apply (marker_absent_after_space "X").
    apply strip_leading_space.
  - rewrite (remove_all_other_marker " " "x" text) by (auto; discriminate).
    rewrite (remove_all_leading_marker "x" text H2).
    rewrite (remove_all_absent "- [X]" (String " " text))
      by now apply (marker_absent_after_space "X").
    apply strip_leading_space.
  - rewrite (remove_all_other_marker " " "X" text) by (auto; discriminate).
    rewrite (remove_all_other_marker "x" "X" text) by (auto; discriminate).
    rewrite (remove_all_leading_marker "X" text H3).
    apply strip_leading_space.
Qed.

(** A task line further down has more task lines before it. *)
Lemma rank_before_lt lines :
  forall k k' l,
    k < k' -> lines !! k = Some l -> is_task_line l = true ->
    length (tasks_of (take k lines)) < length (tasks_of (take k' lines)).
Proof.
  induction lines as [|x ls IH]; intros k k' l Hlt Hk Ht; [discriminate|].
  destruct k' as [|k']; [lia|].
  destruct k as [|k].
  - injection Hk as ->. simpl. unfold tasks_of. simpl. rewrite Ht. simpl. lia.
  - simpl in Hk. assert (Hlt' : k < k') by lia.
    pose proof (IH k k' l Hlt' Hk Ht) as IH'.
    simpl. unfold tasks_of in *. simpl.
    destruct (is_task_line x); simpl; lia.
Qed.

(** The position of the task line of a given rank is unique. *)
Lemma rank_position_unique lines k k' l l' :
  lines !! k = Some l -> is_task_line l = true ->
  lines !! k' = Some l' -> is_task_line l' = true ->
  length (tasks_of (take k lines)) = length (tasks_of (take k' lines)) ->
  k = k'.
Proof.
  intros Hk Ht Hk' Ht' E.
  destruct (Nat.lt_trichotomy k k') as [H|[H|H]]; [|assumption|].
  - pose proof (rank_before_lt lines k k' l H Hk Ht). lia.
  - pose proof (rank_before_lt lines k' k l' H Hk' Ht'). lia.
Qed.

(** On a well-formed task line the markers are stripped as they are from the
    text alone: the checkbox goes, and so does every marker in the text. *)
Lemma strip_markers_marked (l text : string) :
  l = "- [ ] " ++ text \/ l = "- [x] " ++ text \/ l = "- [X] " ++ text ->
  strip_markers l = strip_markers text.
Proof. intros [-> | [-> | ->]]; reflexivity. Qed.

(** C6 (defect in the code).  The claim: a successful [delete i] removes the
    task of rank [i] and reports that task's text, the checkbox marker
    stripped.  The code removes every occurrence of [- [ ]], [- [x]] and
    [- [X]] from the whole line, not only the checkbox at its start: the task
    that [add_task] stored and reported as [pay - [x] bill] is removed by
    [delete_task 1], which reports it as [pay  bill]. *)
Theorem delete_task_strips_markers_inside_text :
  let text := "pay - [x] bill" in
  let l := "- [ ] " ++ text in
  add_task text (on_disk Sample.fresh) = Some (Added text, on_disk (Sample.file [l]))
  /\ task_at (lines_of (Sample.file [l])) 1 = Some l
  /\ delete_task 1 (on_disk (Sample.file [l]))
     = Some (Deleted "pay  bill", on_disk Sample.fresh)
  /\ String.eqb (Py.strip text) "pay  bill" = false.
Proof. vm_compute. repeat split. Qed.

(** The text [delete_task] reports is not, for every well-formed task line,
    the trimmed text of the task. *)
Lemma delete_task_report_is_not_always_the_text :
  ~ (forall (c : string) (i : Z) (text : string),
        task_at (lines_of c) i = Some ("- [ ] " ++ text) ->
        exists st', delete_task i (on_disk c)
                    = Some (Deleted (Py.strip text), st')).
Proof.
  intros H.
  destruct (H (Sample.file ["- [ ] pay - [x] bill"]) 1%Z "pay - [x] bill" eq_refl)
    as [st' E].
  vm_compute in E. discriminate E.
Qed.

(** X23.  On a file with [N] task lines and [1 <= i <= N],
    [delete i] (the write succeeding) saves the lines read minus exactly one
    line: the task line at the one position [k] that has [i - 1] task lines
    before it, which is the task of rank [i].  Read back, there is one task
    fewer, the tasks of lower rank keep their rank and every later task
    moves down by one.  The text reported is the line with every [- [ ]],
    then every [- [x]], then every [- [X]] removed, trimmed.  For a
    well-formed line ([- [ ] ], [- [x] ] or [- [X] ] followed by the text)
    that is the text with the markers that occur in it removed, trimmed; it
    is the trimmed text when the text holds none of the markers. *)
Theorem delete_task_removes_rank (c : string) (i : Z) :
  (1 <= i <= Z.of_nat (length (tasks_of (lines_of c))))%Z ->
  exists (k : nat) (l c' : string),
    lines_of c !! k = Some l
    /\ is_task_line l = true
    /\ length (tasks_of (take k (lines_of c))) = Z.to_nat (i - 1)
    /\ (forall k' l',
          lines_of c !! k' = Some l' -> is_task_line l' = true ->
          length (tasks_of (take k' (lines_of c))) = Z.to_nat (i - 1) ->
          k' = k)
    /\ task_at (lines_of c) i = Some l
    /\ delete_task i (on_disk c) = Some (Deleted (strip_markers l), on_disk c')
    /\ c' = saved (delete k (lines_of c))
    /\ tasks_of (lines_of c') = delete (Z.to_nat (i - 1)) (tasks_of (lines_of c))
    /\ S (length (tasks_of (lines_of c'))) = length (tasks_of (lines_of c))
    /\ (forall r, (1 <= r < i)%Z ->
          task_at (lines_of c') r = task_at (lines_of c) r)
    /\ (forall r, (i <= r)%Z ->
          task_at (lines_of c') r = task_at (lines_of c) (r + 1))
    /\ (forall text,
          l = "- [ ] " ++ text \/ l = "- [x] " ++ text \/ l = "- [X] " ++ text ->
          delete_task i (on_disk c)
          = Some (Deleted (strip_markers text), on_disk c')
          /\ (marker_free text = true ->
              delete_task i (on_disk c)
              = Some (Deleted (Py.strip text), on_disk c'))).
Proof.
  intros Hi.
  destruct (delete_task_in_range c true i Hi) as (k & l & [Hk Ht Hr Hat] & Heq).
  exists k, l, (saved (delete k (lines_of c))).
  assert (Htasks : tasks_of (lines_of (saved (delete k (lines_of c))))
                   = delete (Z.to_nat (i - 1)) (tasks_of (lines_of c))).
  { rewrite tasks_of_saved by (apply Forall_delete, lines_of_unbroken).
    now rewrite (tasks_of_delete _ _ l), Hr. }
  split; [assumption|]. split; [assumption|]. split; [assumption|].
  split.
  { intros k' l' Hk' Ht' Hr'. symmetry.
    apply (rank_position_unique (lines_of c) k k' l l'); auto. congruence. }
  split; [assumption|]. split; [exact Heq|].
  split; [reflexivity|]. split; [assumption|].
  rewrite Htasks.
  split; [|split; [|split]].
  - rewrite length_delete; [lia|].
    apply lookup_lt_is_Some. lia.
  - intros r Hr'. rewrite !task_at_lookup, Htasks by lia.
    apply list_lookup_delete_lt. lia.
  - intros r Hr'. rewrite !task_at_lookup, Htasks by lia.
    rewrite list_lookup_delete_ge by lia.
    f_equal. lia.
  - intros text Hform. unfold on_disk at 1 3. rewrite Heq. split.
    + now rewrite (strip_markers_marked l text Hform).
    + intros Hfree. now rewrite (strip_markers_well_formed l text Hfree Hform).
Qed.

Lemma delete_task_removes_rank_witness :
  exists (k : nat) (l c' : string),
    lines_of (Sample.file ["- [ ] a"; "- [x] b"]) !! k = Some l
    /\ is_task_line l = true
    /\ length (tasks_of (take k (lines_of (Sample.file ["- [ ] a"; "- [x] b"]))))
       = Z.to_nat (1 - 1)
    /\ (forall k' l',
          lines_of (Sample.file ["- [ ] a"; "- [x] b"]) !! k' = Some l' ->
          is_task_line l' = true ->
          length (tasks_of (take k' (lines_of (Sample.file ["- [ ] a"; "- [x] b"]))))
          = Z.to_nat (1 - 1) ->
          k' = k)
    /\ task_at (lines_of (Sample.file ["- [ ] a"; "- [x] b"])) 1 = Some l
    /\ delete_task 1 (on_disk (Sample.file ["- [ ] a"; "- [x] b"]))
       = Some (Deleted (strip_markers l), on_disk c')
    /\ c' = saved (delete k (lines_of (Sample.file ["- [ ] a"; "- [x] b"])))
    /\ tasks_of (lines_of c')
       = delete (Z.to_nat (1 - 1)) (tasks_of (lines_of (Sample.file ["- [ ] a"; "- [x] b"])))
    /\ S (length (tasks_of (lines_of c')))
       = length (tasks_of (lines_of (Sample.file ["- [ ] a"; "- [x] b"])))
    /\ (forall r, (1 <= r < 1)%Z ->
          task_at (lines_of c') r
          = task_at (lines_of (Sample.file ["- [ ] a"; "- [x] b"])) r)
    /\ (forall r, (1 <= r)%Z ->
          task_at (lines_of c') r
          = task_at (lines_of (Sample.file ["- [ ] a"; "- [x] b"])) (r + 1))
    /\ (forall text,
          l = "- [ ] " ++ text \/ l = "- [x] " ++ text \/ l = "- [X] " ++ text ->
          delete_task 1 (on_disk (Sample.file ["- [ ] a"; "- [x] b"]))
          = Some (Deleted (strip_markers text), on_disk c')
          /\ (marker_free text = true ->
              delete_task 1 (on_disk (Sample.file ["- [ ] a"; "- [x] b"]))
              = Some (Deleted (Py.strip text), on_disk c'))).
Proof.
  apply (delete_task_removes_rank (Sample.file ["- [ ] a"; "- [x] b"]) 1).
  vm_compute. split; discriminate.
Defined.

(** C2 (defect in the code).  The claim: [clearCompleted] removes the lines
    marked [- [x]] and those marked [- [X]], and reports how many it removed.
    The code removes only the lines that start with the lower-case [- [x]]:
    of the two completed tasks below it removes one and leaves [- [X] done],
    which [list_tasks] still shows as completed and [check_task] refuses as
    already completed. *)
Theorem clear_done_tasks_keeps_uppercase_marker :
  let before := Sample.file ["- [X] done"; "- [x] other"] in
  let after := Sample.file ["- [X] done"] in
  clear_done_tasks (on_disk before) = Some (ClearedDone 1, on_disk after)
  /\ list_tasks (on_disk after)
     = Some ([Listed 1 true "- [X] done"], on_disk after)
  /\ check_task 1 (on_disk after) = Some (AlreadyCompleted, on_disk after)
  /\ clear_done_tasks (on_disk after) = Some (ClearedDone 0, on_disk after).
Proof. vm_compute. repeat split. Qed.

(** C3 as stated does not hold: the answer [Y] is not the lower-case [y],
    yet it confirms and every task is removed. *)
Lemma clearall_confirmation_counterexample :
  ~ (forall (st : store) (text : string),
        text <> "y" ->
        confirm_destructive (Line text) st = Some (Cancelled, st)).
Proof.
  intros H.
  specialize (H (on_disk (Sample.file ["- [ ] a"])) "Y").
  vm_compute in H. discriminate H. discriminate.
Qed.

(** C3 (amended).  After the command [clearall], the next input confirms
    exactly when it is a line that, once trimmed and lower-cased, equals
    [y] (so [Y] confirms as well); then [clear_all_tasks] runs.  Any other
    line, end of input or an interrupt gives "Cancelled" and the loop goes
    on from the same file. *)
Theorem clearall_confirmation
    (cmd : string) (answer : input_event) (rest : list input_event)
    (status_msg : option status) (st : store) :
  Py.lower (Py.strip cmd) = "clearall" ->
  shell_loop (Line cmd :: answer :: rest) status_msg st
  = (let* scr := redraw status_msg in
     let* s := (if confirms answer then clear_all_tasks else ret Cancelled) in
     let* scrs := shell_loop rest (Some s) in
     ret (scr :: scrs)) st
  /\ (confirms answer = false ->
      confirm_destructive answer st = Some (Cancelled, st)).
Proof.
  intros Hcmd. split.
  - cbn [shell_loop]. rewrite Hcmd. unfold bind.
    destruct (redraw status_msg st) as [[scr st1]|]; [|reflexivity].
    change (String.eqb "clearall" "exit") with false.
    change (Py.startswith "add " "clearall") with false.
    change (Py.startswith "check " "clearall") with false.
    change (Py.startswith "delete " "clearall") with false.
    change (String.eqb "clearall" "clear") with false.
    change (String.eqb "clearall" "clearall") with true.
    cbv iota.
    destruct answer as [text| |]; reflexivity.
  - destruct answer as [text| |]; cbn [confirm_destructive confirms];
      try reflexivity.
    now intros ->.
Qed.

Lemma clearall_confirmation_witness :
  shell_loop [Line "clearall"; Line "n"] None (on_disk (Sample.file ["- [ ] a"]))
  = (let* scr := redraw None in
     let* s := (if confirms (Line "n") then clear_all_tasks else ret Cancelled) in
     let* scrs := shell_loop [] (Some s) in
     ret (scr :: scrs)) (on_disk (Sample.file ["- [ ] a"]))
  /\ (confirms (Line "n") = false ->
      confirm_destructive (Line "n") (on_disk (Sample.file ["- [ ] a"]))
      = Some (Cancelled, on_disk (Sample.file ["- [ ] a"]))).
Proof.
  apply (clearall_confirmation "clearall" (Line "n") [] None).
  reflexivity.
Defined.

(** C4 (defect in the code).  The claim: the text after [add] is stored with
    its letter case as entered.  The shell lower-cases the whole input line
    before it takes the text from it, so [add Buy Milk] stores [buy milk];
    the one-shot [smallt add Buy Milk] stores [Buy Milk]. *)
Theorem shell_add_lowercases_task_text :
  (exists screens,
      run_shell [Line "add Buy Milk"] (on_disk Sample.fresh)
      = Some (screens, on_disk (Sample.file ["- [ ] buy milk"]))
      /\ List.map shown screens = [None; Some (Added "buy milk")])
  /\ main ["add"; "Buy"; "Milk"] [] (on_disk Sample.fresh)
     = Some (Printed (Added "Buy Milk"), on_disk (Sample.file ["- [ ] Buy Milk"])).
Proof. split; [eexists; split|]; vm_compute; reflexivity. Qed.

(** ** Clearing *)


Lemma tasks_of_other_lines lines : tasks_of (other_lines lines) = [].
Proof.
  induction lines as [|l ls IH]; [reflexivity|].
  unfold other_lines, tasks_of in *. simpl.
  destruct (is_task_line l) eqn:Hl; simpl; [assumption|].
  now rewrite Hl.
Qed.



Lemma count_tasks_and_others lines :
  length (tasks_of lines) + length (other_lines lines) = length lines.
Proof.
  induction lines as [|l ls IH]; [reflexivity|].
  unfold tasks_of, other_lines in *. simpl.
  destruct (is_task_line l); simpl; lia.
Qed.

(** C8.  On a file without task lines [clearAll] reports "no tasks" and
    does not write: the store is what it was, whether or not the file could
    be written.  On a file with task lines, the write succeeding, it saves
    the lines that are not task lines, so that no task line is left, and
    reports the number of task lines, which is the number of lines removed;
    when the write fails it reports the failure. *)
Theorem clear_all_tasks_by_task_count (c : string) (w : bool) :
  match tasks_of (lines_of c) with
  | [] =>
      clear_all_tasks (Store (Readable c) w) = Some (NoTasks, Store (Readable c) w)
  | _ :: _ =>
      clear_all_tasks (on_disk c)
      = Some (ClearedAll (length (tasks_of (lines_of c))),
              on_disk (saved (other_lines (lines_of c))))
      /\ tasks_of (lines_of (saved (other_lines (lines_of c)))) = []
      /\ length (tasks_of (lines_of c)) + length (other_lines (lines_of c))
         = length (lines_of c)
      /\ clear_all_tasks (Store (Readable c) false)
         = Some (ClearFailed, Store (Readable c) false)
  end.
Proof.
  unfold clear_all_tasks, bind, on_disk. rewrite !load_tasks_readable.
  fold (tasks_of (lines_of c)). fold (other_lines (lines_of c)).
  destruct (tasks_of (lines_of c)) as [|t ts] eqn:Ht; [reflexivity|].
  split; [reflexivity|]. split; [|split; [|reflexivity]].
  - rewrite tasks_of_saved
      by (apply Forall_filter_bool, lines_of_unbroken).
    apply tasks_of_other_lines.
  - rewrite <- Ht. apply count_tasks_and_others.
Qed.

(** ** Saving what was loaded *)














(** ** Appending a line *)







(** C9.  The claim: every operation, [add] included, leaves the lines that
    are not task lines as they were, and only adds, changes or removes task
    lines.  The code of [add_task] appends [- [ ] text\n] to the bytes of the
    file without looking at them: on a file whose last line [note] has no
    final newline it answers "Added: x", yet the file holds no task afterwards
    and the line [note] has become [note- [ ] x].  Its docstring says "Add a
    new task to the file", and the other operations, which write through
    [save_tasks], keep [note] on the same file. *)
Theorem add_task_glues_task_onto_last_line :
  let before := Sample.fresh ++ "note" in
  let after := Sample.fresh ++ "note- [ ] x" ++ NL in
  add_task "x" (on_disk before) = Some (Added "x", on_disk after)
  /\ tasks_of (lines_of before) = []
  /\ tasks_of (lines_of after) = []
  /\ other_lines (lines_of before) = [HEADER; ""; "note"]
  /\ other_lines (lines_of after) = [HEADER; ""; "note- [ ] x"]
  /\ clear_done_tasks (on_disk before)
     = Some (ClearedDone 0, on_disk (before ++ NL)).
Proof. vm_compute. repeat split. Qed.

(** The frame property does not hold of every operation on every readable
    file: on a file whose last line has no final newline, [add] glues the new
    task onto that line. *)
Lemma add_task_breaks_frame_on_unterminated_file :
  ~ (forall (c : string) (op : operation) (s : status) (st' : store),
        run_operation op (on_disk c) = Some (s, st') ->
        exists c', disk st' = Readable c'
                   /\ other_lines (lines_of c') = other_lines (lines_of c)).
Proof.
  intros H.
  destruct (H (Sample.fresh ++ "note") (OpAdd "x") _ _ eq_refl) as (c' & Hc' & Hl).
  injection Hc' as <-. vm_compute in Hl. discriminate Hl.
Qed.



(** * Further properties of the program *)

(** ** The storage helpers *)

(** X1.  Loading right after saving gives back the lines that were saved,
    provided no line holds a line boundary character (which is the case for
    every list of lines the program saves); an empty list comes back as one
    empty line. *)
Theorem save_then_load_round_trip (ls : list string) (d : file) :
  Forall (fun l => unbroken l = true) ls ->
  save_then_load ls (Store d true)
  = Some (match ls with [] => [""] | _ => ls end, on_disk (saved ls)).
Proof.
  intros H. unfold save_then_load, bind.
  rewrite save_tasks_writable. unfold on_disk.
  now rewrite load_tasks_readable, lines_of_saved.
Qed.

Lemma save_then_load_round_trip_witness :
  save_then_load [HEADER; ""; "- [ ] a"] (Store Missing true)
  = Some ([HEADER; ""; "- [ ] a"], on_disk (saved [HEADER; ""; "- [ ] a"])).
Proof.
  apply (save_then_load_round_trip [HEADER; ""; "- [ ] a"] Missing).
  repeat constructor.
Defined.

Lemma strip_header y : Py.strip (HEADER ++ y) = HEADER ++ Py.rstrip y.
Proof.
  unfold Py.strip.
  change (Py.lstrip (HEADER ++ y)) with (HEADER ++ y).
  unfold HEADER. simpl. now destruct (Py.rstrip y).
Qed.

Lemma header_ok_header y : header_ok (HEADER ++ y) = true.
Proof.
  unfold header_ok.
  change (Py.universal_newlines (HEADER ++ y))
    with (HEADER ++ Py.universal_newlines y).
  rewrite strip_header. apply startswith_app.
Qed.

(** [ensure_task_file] on a file that can be read. *)
Lemma ensure_task_file_readable c w :
  ensure_task_file (Store (Readable c) w) =
  if header_ok c then Some (tt, Store (Readable c) w)
  else if w
       then Some (tt, on_disk (Sample.fresh
                               ++ match salvaged c with
                                  | [] => ""
                                  | _ => Py.join NL (salvaged c) ++ NL
                                  end))
       else None.
Proof.
  unfold ensure_task_file, bind, path_exists, read_text, header_ok, salvaged.
  cbn [disk negb].
  set (content := Py.strip (Py.universal_newlines c)).
  destruct (Py.startswith HEADER content) eqn:E.
  - destruct content; [discriminate|]. reflexivity.
  - rewrite orb_true_r. unfold write_text, write_or_raise, bind, write_text.
    cbn [writable]. destruct w; reflexivity.
Qed.

Lemma ensure_task_file_absent d w :
  (forall c, d <> Readable c) ->
  ensure_task_file (Store d w)
  = if w then Some (tt, on_disk Sample.fresh) else None.
Proof.
  intros H. destruct d as [| |c]; [| |now destruct (H c)];
    destruct w; reflexivity.
Qed.

Lemma ensure_task_file_header (st st' : store) :
  ensure_task_file st = Some (tt, st') ->
  exists c, disk st' = Readable c /\ header_ok c = true.
Proof.
  destruct st as [d w]. destruct d as [| |c].
  - rewrite ensure_task_file_absent by discriminate.
    destruct w; [|discriminate]. intros E. injection E as <-.
    exists Sample.fresh. split; reflexivity.
  - rewrite ensure_task_file_absent by discriminate.
    destruct w; [|discriminate]. intros E. injection E as <-.
    exists Sample.fresh. split; reflexivity.
  - rewrite ensure_task_file_readable.
    destruct (header_ok c) eqn:Hc.
    + intros E. injection E as <-. now exists c.
    + destruct w; [|discriminate]. intros E. injection E as <-.
      set (tail := match salvaged c with
                   | [] => ""
                   | _ => Py.join NL (salvaged c) ++ NL
                   end).
      exists (Sample.fresh ++ tail). split; [reflexivity|].
      apply (header_ok_header (NL ++ NL ++ tail)).
Qed.

(** X2.  Started on a file that is missing, or present and readable,
    [ensure_task_file], whenever it returns, leaves a file that can be read
    and whose content, stripped, starts with the header [# Task List].  (A
    file that is present but cannot be read is left out: one that is
    unreadable for lack of permission stays so after it is rewritten.) *)
Theorem ensure_task_file_establishes_header (st st' : store) :
  disk st <> Unreadable ->
  ensure_task_file st = Some (tt, st') ->
  exists c, disk st' = Readable c /\ header_ok c = true.
Proof. intros _. apply ensure_task_file_header. Qed.

Lemma ensure_task_file_establishes_header_witness :
  exists c,
    disk (on_disk (Sample.file ["- [ ] a"])) = Readable c /\ header_ok c = true.
Proof.
  apply (ensure_task_file_establishes_header
           (on_disk ("junk" ++ NL ++ "- [ ] a" ++ NL ++ "more"))).
  - discriminate.
  - reflexivity.
Defined.

(** X3.  Started on a file that is missing, or present and readable,
    [ensure_task_file] is idempotent: a second run right after a first one
    that returned changes nothing, and needs no write. *)
Theorem ensure_task_file_idempotent (st st' : store) :
  disk st <> Unreadable ->
  ensure_task_file st = Some (tt, st') ->
  ensure_task_file st' = Some (tt, st')
  /\ ensure_task_file (Store (disk st') false) = Some (tt, Store (disk st') false).
Proof.
  intros _ H.
  destruct (ensure_task_file_header _ _ H) as (c & Hd & Hok).
  destruct st' as [d' w']. simpl in Hd. subst d'. cbn [disk].
  now rewrite !ensure_task_file_readable, Hok.
Qed.

Lemma ensure_task_file_idempotent_witness :
  ensure_task_file (on_disk Sample.fresh) = Some (tt, on_disk Sample.fresh)
  /\ ensure_task_file (Store (disk (on_disk Sample.fresh)) false)
     = Some (tt, Store (disk (on_disk Sample.fresh)) false).
Proof.
  apply (ensure_task_file_idempotent (Store Missing true)).
  - discriminate.
  - reflexivity.
Defined.

Lemma tasks_of_idempotent lines : tasks_of (tasks_of lines) = tasks_of lines.
Proof.
  induction lines as [|l ls IH]; [reflexivity|].
  unfold tasks_of in *. simpl.
  destruct (is_task_line l) eqn:Hl; simpl; [|assumption].
  now rewrite Hl, IH.
Qed.

Lemma salvaged_unbroken c : Forall (fun l => unbroken l = true) (salvaged c).
Proof. apply Forall_filter_bool, splitlines_unbroken. Qed.

(** X4.  On a readable, writable file whose stripped content does not start
    with the header, [ensure_task_file] writes the header, an empty line and
    then the lines of the stripped content that start with [- []], in their
    order; every other line is dropped. *)
Theorem ensure_task_file_salvages_tasks (c : string) :
  header_ok c = false ->
  exists c',
    ensure_task_file (on_disk c) = Some (tt, on_disk c')
    /\ lines_of c' = HEADER :: "" :: salvaged c
    /\ tasks_of (lines_of c') = salvaged c.
Proof.
  intros Hc. eexists. split; [|split].
  - unfold on_disk at 1. rewrite ensure_task_file_readable, Hc. reflexivity.
  - rewrite lines_of_splitlines. unfold Sample.fresh.
    rewrite !append_assoc.
    rewrite splitlines_unbroken_line by reflexivity.
    rewrite splitlines_newline.
    pose proof (salvaged_unbroken c) as Hu.
    destruct (salvaged c) as [|t ts] eqn:Hs; [reflexivity|].
    fold (saved (t :: ts)). now rewrite splitlines_saved.
  - assert (Hl : forall tail, lines_of (Sample.fresh ++ tail)
                              = HEADER :: "" :: Py.splitlines tail).
    { intros tail. rewrite lines_of_splitlines. unfold Sample.fresh.
      rewrite !append_assoc.
      rewrite splitlines_unbroken_line by reflexivity.
      now rewrite splitlines_newline. }
    rewrite Hl.
    change (tasks_of (HEADER :: "" :: ?x)) with (tasks_of x).
    pose proof (salvaged_unbroken c) as Hu.
    destruct (salvaged c) as [|t ts] eqn:Hs; [reflexivity|].
    fold (saved (t :: ts)). rewrite splitlines_saved by assumption.
    rewrite <- Hs. apply tasks_of_idempotent.
Qed.

Lemma ensure_task_file_salvages_tasks_witness :
  exists c',
    ensure_task_file (on_disk ("junk" ++ NL ++ "- [ ] a" ++ NL ++ "more"))
    = Some (tt, on_disk c')
    /\ lines_of c' = HEADER :: "" :: salvaged ("junk" ++ NL ++ "- [ ] a" ++ NL ++ "more")
    /\ tasks_of (lines_of c') = salvaged ("junk" ++ NL ++ "- [ ] a" ++ NL ++ "more").
Proof.
  apply (ensure_task_file_salvages_tasks ("junk" ++ NL ++ "- [ ] a" ++ NL ++ "more")).
  reflexivity.
Defined.

(** ** Listing and adding *)

(** What [check_task] and [delete_task] do with a number in range: both act
    on the same line, at the same position of the file. *)
Lemma check_and_delete_in_range c w i :
  (1 <= i <= Z.of_nat (length (tasks_of (lines_of c))))%Z ->
  exists k l,
    located (lines_of c) i k l
    /\ check_task i (Store (Readable c) w) =
       (if looks_completed l then Some (AlreadyCompleted, Store (Readable c) w)
        else if w
             then Some (Checked i,
                        on_disk (saved (<[k := Py.replace_first "[ ]" "[x]" l]>
                                          (lines_of c))))
             else Some (SaveFailed, Store (Readable c) w))
    /\ delete_task i (Store (Readable c) w) =
       (if w then Some (Deleted (strip_markers l),
                        on_disk (saved (delete k (lines_of c))))
        else Some (DeleteFailed, Store (Readable c) w)).
Proof.
  intros Hi.
  destruct (target_located (lines_of c) i (Store (Readable c) w) Hi)
    as (k & l & Ht & Hloc).
  exists k, l. split; [assumption|].
  unfold check_task, delete_task, bind. rewrite load_tasks_readable.
  apply out_of_range_false in Hi. rewrite Hi, Ht.
  split.
  - destruct (looks_completed l); [reflexivity|]. destruct w; reflexivity.
  - destruct w; reflexivity.
Qed.

(** X5.  On a readable file [list_tasks] changes nothing and returns one row
    per task line; the row at position [n] carries the number [n + 1] and the
    completed flag that [check_task] tests.  Given the number a row shows,
    [check_task] and [delete_task] act on that row's line and on no other:
    there is one position [k] of the file, the one that holds the row's line
    after [n] earlier task lines, such that [check_task] answers "already
    completed" when the row is flagged completed and otherwise rewrites the
    line at [k], and [delete_task] reports that line and removes the line at
    [k]. *)
Theorem list_tasks_numbers_are_ranks (c : string) (w : bool) :
  exists rows,
    list_tasks (Store (Readable c) w) = Some (rows, Store (Readable c) w)
    /\ length rows = length (tasks_of (lines_of c))
    /\ forall n row,
         rows !! n = Some row ->
         number row = n + 1
         /\ completed row = looks_completed (line row)
         /\ exists k,
              lines_of c !! k = Some (line row)
              /\ length (tasks_of (take k (lines_of c))) = n
              /\ check_task (Z.of_nat (number row)) (Store (Readable c) w)
                 = (if completed row
                    then Some (AlreadyCompleted, Store (Readable c) w)
                    else if w
                         then Some (Checked (Z.of_nat (number row)),
                                    on_disk (saved (<[k := Py.replace_first
                                                            "[ ]" "[x]" (line row)]>
                                                      (lines_of c))))
                         else Some (SaveFailed, Store (Readable c) w))
              /\ delete_task (Z.of_nat (number row)) (Store (Readable c) w)
                 = (if w
                    then Some (Deleted (strip_markers (line row)),
                               on_disk (saved (delete k (lines_of c))))
                    else Some (DeleteFailed, Store (Readable c) w)).
Proof.
  exists (imap (fun i l => Listed (i + 1) (looks_completed l) l)
               (tasks_of (lines_of c))).
  split; [reflexivity|]. split; [apply length_imap|].
  intros n row Hrow. rewrite list_lookup_imap in Hrow.
  destruct (tasks_of (lines_of c) !! n) as [l|] eqn:Hl; [|discriminate].
  injection Hrow as <-. cbn [number completed line].
  split; [reflexivity|]. split; [reflexivity|].
  assert (Hi : (1 <= Z.of_nat (n + 1)
                <= Z.of_nat (length (tasks_of (lines_of c))))%Z).
  { apply lookup_lt_Some in Hl. lia. }
  destruct (check_and_delete_in_range c w _ Hi)
    as (k & l0 & [Hk _ Hr Hat] & Hc & Hd).
  rewrite task_at_lookup in Hat by lia.
  replace (Z.to_nat (Z.of_nat (n + 1) - 1)) with n in Hat, Hr by lia.
  rewrite Hl in Hat. injection Hat as <-.
  exists k. split; [exact Hk|]. split; [exact Hr|]. split; assumption.
Qed.




(** X7.  For a text of characters with code points below 256, which the
    encoding of the file is taken to hold, [add_task] answers "Task cannot
    be empty" exactly when the text is empty or all white space, and then it
    leaves the store as it was, creating no file.  With any other such text,
    on a store that cannot be written, it reports the failure and changes
    nothing. *)
Theorem add_task_empty_or_answered (text : string) (st : store) :
  (Py.strip text = "" <-> add_task text st = Some (EmptyInput, st))
  /\ (Py.strip text <> "" -> writable st = false ->
      add_task text st = Some (AddFailed, st)).
Proof.
  unfold add_task, bind, append_text.
  destruct (String.eqb_spec (Py.strip text) "") as [E|E].
  - split; [tauto|]. intros H. now destruct H.
  - destruct st as [d w]. cbn [writable disk].
    destruct w; (split; [|intros _ Hw; try discriminate; reflexivity]);
      (split; [intros H; now destruct E | intros H; discriminate]).
Qed.

(** ** Checking and deleting *)

(** X8.  On a readable file [check_task] and [delete_task] answer "Task not
    found" exactly when the index is below 1 or above the number of task
    lines, and then the store is left as it was. *)
Theorem not_found_iff_out_of_range (c : string) (w : bool) (i : Z) :
  let st := Store (Readable c) w in
  let n := Z.of_nat (length (tasks_of (lines_of c))) in
  ((exists st', check_task i st = Some (NotFound, st')) <-> (i < 1 \/ n < i)%Z)
  /\ ((exists st', delete_task i st = Some (NotFound, st')) <-> (i < 1 \/ n < i)%Z)
  /\ ((i < 1 \/ n < i)%Z ->
      check_task i st = Some (NotFound, st)
      /\ delete_task i st = Some (NotFound, st)).
Proof.
  cbv zeta.
  destruct (Z_le_dec 1 i) as [H1|H1];
    [destruct (Z_le_dec i (Z.of_nat (length (tasks_of (lines_of c))))) as [H2|H2]|].
  - destruct (check_task_in_range c w i (conj H1 H2)) as (k & l & _ & Hc).
    destruct (delete_task_in_range c w i (conj H1 H2)) as (k' & l' & _ & Hd).
    rewrite Hc, Hd. split; [|split]; [split|split|]; try lia.
    + intros [st' E]. destruct (looks_completed l); [discriminate|].
      destruct w; discriminate.
    + intros [st' E]. destruct w; discriminate.
  - rewrite check_task_out_of_range, delete_task_out_of_range by lia.
    split; [|split]; [split|split|]; eauto; lia.
  - rewrite check_task_out_of_range, delete_task_out_of_range by lia.
    split; [|split]; [split|split|]; eauto; lia.
Qed.

Lemma replace_first_marker text :
  Py.replace_first "[ ]" "[x]" ("- [ ] " ++ text) = "- [x] " ++ text.
Proof. reflexivity. Qed.

(** X9.  On a writable file, [check_task] on the rank of a well-formed
    incomplete task [- [ ] text] (one whose text does not make it look
    completed) reports success and saves the lines read with that one line
    turned into [- [x] text]: the task keeps its rank and its text, and every
    other line and task is as before. *)
Theorem check_task_marks_the_task (c : string) (i : Z) (text : string) :
  task_at (lines_of c) i = Some ("- [ ] " ++ text) ->
  looks_completed ("- [ ] " ++ text) = false ->
  exists k,
    lines_of c !! k = Some ("- [ ] " ++ text)
    /\ check_task i (on_disk c)
       = Some (Checked i, on_disk (saved (<[k := "- [x] " ++ text]> (lines_of c))))
    /\ lines_of (saved (<[k := "- [x] " ++ text]> (lines_of c)))
       = <[k := "- [x] " ++ text]> (lines_of c)
    /\ tasks_of (<[k := "- [x] " ++ text]> (lines_of c))
       = <[Z.to_nat (i - 1) := "- [x] " ++ text]> (tasks_of (lines_of c)).
Proof.
  intros Hat Hdone.
  pose proof (task_at_Some _ _ _ Hat) as Hi.
  destruct (check_task_in_range c true i Hi) as (k & l & [Hk Ht Hr Hat'] & Heq).
  assert (El : l = "- [ ] " ++ text) by congruence. subst l.
  exists k. split; [assumption|].
  rewrite Hdone, replace_first_marker in Heq.
  split; [exact Heq|]. split.
  - rewrite lines_of_saved.
    + destruct (<[k := "- [x] " ++ text]> (lines_of c)) eqn:E; [|reflexivity].
      apply (f_equal length) in E. rewrite length_insert in E.
      apply lookup_lt_Some in Hk. simpl in E. lia.
    + apply Forall_insert; [apply lines_of_unbroken|].
      rewrite <- replace_first_marker. apply replace_first_unbroken.
      pose proof (lines_of_unbroken c) as Hall.
      rewrite Forall_lookup in Hall. exact (Hall _ _ Hk).
  - rewrite (tasks_of_insert _ _ ("- [ ] " ++ text)), Hr; auto.
Qed.

Lemma check_task_marks_the_task_witness :
  exists k,
    lines_of (Sample.file ["- [x] a"; "- [ ] buy milk"]) !! k = Some ("- [ ] " ++ "buy milk")
    /\ check_task 2 (on_disk (Sample.file ["- [x] a"; "- [ ] buy milk"]))
       = Some (Checked 2,
               on_disk (saved (<[k := "- [x] " ++ "buy milk"]>
                                 (lines_of (Sample.file ["- [x] a"; "- [ ] buy milk"])))))
    /\ lines_of (saved (<[k := "- [x] " ++ "buy milk"]>
                          (lines_of (Sample.file ["- [x] a"; "- [ ] buy milk"]))))
       = <[k := "- [x] " ++ "buy milk"]> (lines_of (Sample.file ["- [x] a"; "- [ ] buy milk"]))
    /\ tasks_of (<[k := "- [x] " ++ "buy milk"]>
                   (lines_of (Sample.file ["- [x] a"; "- [ ] buy milk"])))
       = <[Z.to_nat (2 - 1) := "- [x] " ++ "buy milk"]>
           (tasks_of (lines_of (Sample.file ["- [x] a"; "- [ ] buy milk"]))).
Proof.
  apply (check_task_marks_the_task
           (Sample.file ["- [x] a"; "- [ ] buy milk"]) 2 "buy milk");
    reflexivity.
Defined.

(** ** Clearing, once and again *)

Lemma tasks_of_filter (f : string -> bool) lines :
  tasks_of (List.filter f lines) = List.filter f (tasks_of lines).
Proof.
  induction lines as [|l ls IH]; [reflexivity|].
  unfold tasks_of in *. simpl.
  destruct (f l) eqn:Hf, (is_task_line l) eqn:Ht; simpl;
    rewrite ?Hf, ?Ht, IH; reflexivity.
Qed.

Lemma not_done_after_filter lines :
  Forall (fun l => is_done_line l = false)
         (List.filter (fun l => negb (is_done_line l)) lines).
Proof.
  induction lines as [|l ls IH]; simpl; [constructor|].
  destruct (is_done_line l) eqn:Hd; simpl; [assumption|].
  now constructor.
Qed.

Lemma filter_done_none lines :
  Forall (fun l => is_done_line l = false) lines ->
  List.filter is_done_line lines = []
  /\ List.filter (fun l => negb (is_done_line l)) lines = lines.
Proof.
  induction 1 as [|l ls Hl Hls [IH1 IH2]]; [now split|].
  simpl. rewrite Hl. simpl. now rewrite IH1, IH2.
Qed.

(** What is read back after the lines kept by [clear_done_tasks] were
    saved. *)
Lemma kept_read_back lines :
  Forall (fun l => unbroken l = true) lines ->
  let kept := List.filter (fun l => negb (is_done_line l)) lines in
  Forall (fun l => is_done_line l = false) (lines_of (saved kept))
  /\ saved (lines_of (saved kept)) = saved kept.
Proof.
  intros Hu kept.
  assert (Hk : Forall (fun l => unbroken l = true) kept)
    by now apply Forall_filter_bool.
  rewrite lines_of_saved by assumption.
  pose proof (not_done_after_filter lines) as Hnd. fold kept in Hnd.
  destruct kept as [|l ls]; [|now split].
  split; [|reflexivity]. now repeat constructor.
Qed.

(** X10.  On a writable file [clear_done_tasks] saves the lines read minus
    those that start with [- [x]], and reports how many it dropped; read
    back, no line starts with [- [x]] and the tasks left are the former
    tasks that did not, in their order. *)
Theorem clear_done_tasks_removes_done_lines (c : string) :
  let lines := lines_of c in
  let kept := List.filter (fun l => negb (is_done_line l)) lines in
  clear_done_tasks (on_disk c)
  = Some (ClearedDone (length (List.filter is_done_line lines)), on_disk (saved kept))
  /\ length (List.filter is_done_line lines) + length kept = length lines
  /\ Forall (fun l => is_done_line l = false) (lines_of (saved kept))
  /\ tasks_of (lines_of (saved kept))
     = List.filter (fun l => negb (is_done_line l)) (tasks_of lines).
Proof.
  cbv zeta. split; [reflexivity|]. split; [|split].
  - induction (lines_of c) as [|l ls IH]; [reflexivity|].
    simpl. destruct (is_done_line l); simpl; lia.
  - apply kept_read_back, lines_of_unbroken.
  - rewrite tasks_of_saved by (apply Forall_filter_bool, lines_of_unbroken).
    apply tasks_of_filter.
Qed.

(** X11.  [clear_done_tasks] is idempotent: run again right after a run on a
    writable file, it reports 0 removed and writes the content that is
    already there. *)
Theorem clear_done_tasks_twice (c : string) (s : status) (st1 : store) :
  clear_done_tasks (on_disk c) = Some (s, st1) ->
  clear_done_tasks st1 = Some (ClearedDone 0, st1).
Proof.
  intros H.
  unfold clear_done_tasks, bind, on_disk in H.
  rewrite load_tasks_readable, save_tasks_writable in H.
  injection H as _ <-.
  destruct (kept_read_back (lines_of c) (lines_of_unbroken c)) as [Hnd Hsame].
  destruct (filter_done_none _ Hnd) as [Hnone Hall].
  unfold clear_done_tasks, bind, on_disk at 1.
  rewrite load_tasks_readable, Hnone, Hall, save_tasks_writable.
  now rewrite Hsame.
Qed.

Lemma clear_done_tasks_twice_witness :
  clear_done_tasks (on_disk (Sample.file ["- [ ] a"]))
  = Some (ClearedDone 0, on_disk (Sample.file ["- [ ] a"])).
Proof.
  apply (clear_done_tasks_twice (Sample.file ["- [x] done"; "- [ ] a"])
                                (ClearedDone 1)).
  reflexivity.
Defined.

Lemma nothing_to_clear c w :
  tasks_of (lines_of c) = [] ->
  clear_all_tasks (Store (Readable c) w) = Some (NoTasks, Store (Readable c) w)
  /\ list_tasks (Store (Readable c) w) = Some ([], Store (Readable c) w).
Proof.
  intros H. unfold clear_all_tasks, list_tasks, bind.
  rewrite !load_tasks_readable.
  fold (tasks_of (lines_of c)). now rewrite H.
Qed.

(** X12.  After [clear_all_tasks] has returned on a writable file, nothing
    is listed any more and a second [clear_all_tasks] reports that there are
    no tasks to clear, without writing. *)
Theorem clear_all_tasks_then_nothing_left (c : string) (s : status) (st1 : store) :
  clear_all_tasks (on_disk c) = Some (s, st1) ->
  clear_all_tasks st1 = Some (NoTasks, st1)
  /\ list_tasks st1 = Some ([], st1)
  /\ clear_all_tasks (Store (disk st1) false) = Some (NoTasks, Store (disk st1) false).
Proof.
  intros H. unfold clear_all_tasks, bind, on_disk in H.
  rewrite load_tasks_readable in H. fold (tasks_of (lines_of c)) in H.
  fold (other_lines (lines_of c)) in H.
  destruct (Nat.eqb (length (tasks_of (lines_of c))) 0) eqn:E.
  - injection H as _ <-. apply Nat.eqb_eq in E.
    assert (Ht : tasks_of (lines_of c) = []) by now destruct (tasks_of (lines_of c)).
    destruct (nothing_to_clear c true Ht) as [H1 H2].
    destruct (nothing_to_clear c false Ht) as [H3 _]. auto.
  - rewrite save_tasks_writable in H. injection H as _ <-.
    assert (Ht : tasks_of (lines_of (saved (other_lines (lines_of c)))) = []).
    { rewrite tasks_of_saved by (apply Forall_filter_bool, lines_of_unbroken).
      apply tasks_of_other_lines. }
    destruct (nothing_to_clear _ true Ht) as [H1 H2].
    destruct (nothing_to_clear _ false Ht) as [H3 _]. auto.
Qed.

Lemma clear_all_tasks_then_nothing_left_witness :
  clear_all_tasks (on_disk Sample.fresh) = Some (NoTasks, on_disk Sample.fresh)
  /\ list_tasks (on_disk Sample.fresh) = Some ([], on_disk Sample.fresh)
  /\ clear_all_tasks (Store (disk (on_disk Sample.fresh)) false)
     = Some (NoTasks, Store (disk (on_disk Sample.fresh)) false).
Proof.
  apply (clear_all_tasks_then_nothing_left
           (Sample.file ["- [x] done"; "- [ ] a"]) (ClearedAll 2)).
  reflexivity.
Defined.

(** ** A file that is missing or cannot be read *)

Lemma load_tasks_absent d w :
  (forall c, d <> Readable c) ->
  load_tasks (Store d w)
  = if w then Some ([HEADER; ""], on_disk Sample.fresh) else None.
Proof.
  intros H. destruct d as [| |c]; [| |now destruct (H c)];
    destruct w; reflexivity.
Qed.

Lemma out_of_range_nil i : out_of_range i [] = true.
Proof.
  unfold out_of_range. destruct (Z.ltb_spec i 1); [reflexivity|].
  simpl. apply Z.gtb_lt. lia.
Qed.

(** The operations other than [add] when the file is not readable. *)
Lemma run_operation_absent d w op :
  (forall c, d <> Readable c) ->
  is_add op = false ->
  run_operation op (Store d w)
  = if w
    then Some (match op with
               | OpCheck _ | OpDelete _ => NotFound
               | OpClearCompleted => ClearedDone 0
               | _ => NoTasks
               end, on_disk Sample.fresh)
    else None.
Proof.
  intros Hd Hop.
  destruct op as [text|i|i| |]; try discriminate; cbn [run_operation];
    unfold check_task, delete_task, clear_done_tasks, clear_all_tasks, bind;
    rewrite (load_tasks_absent d w Hd); destruct w; try reflexivity.
  - change (task_positions [HEADER; ""]) with (@nil nat).
    now rewrite out_of_range_nil.
  - change (task_positions [HEADER; ""]) with (@nil nat).
    now rewrite out_of_range_nil.
Qed.

(** X13.  When [tasks.md] is missing or cannot be read but can be written,
    every operation other than [add] first recreates it with just the header
    and an empty line, and then answers as on an empty task list: "not
    found" for every index, 0 completed cleared, no tasks to clear. *)
Theorem absent_file_is_recreated (d : file) (op : operation) :
  (forall c, d <> Readable c) ->
  is_add op = false ->
  run_operation op (Store d true)
  = Some (match op with
          | OpCheck _ | OpDelete _ => NotFound
          | OpClearCompleted => ClearedDone 0
          | _ => NoTasks
          end, on_disk Sample.fresh).
Proof. intros Hd Hop. now rewrite run_operation_absent. Qed.

Lemma absent_file_is_recreated_witness :
  run_operation (OpCheck 1) (Store Missing true)
  = Some (NotFound, on_disk Sample.fresh).
Proof.
  apply (absent_file_is_recreated Missing (OpCheck 1)); [discriminate|reflexivity].
Defined.

Lemma run_operation_readable c w op :
  exists s st', run_operation op (Store (Readable c) w) = Some (s, st').
Proof.
  destruct op as [text|i|i| |]; cbn [run_operation].
  - unfold add_task, bind, append_text. cbn [writable disk].
    destruct (String.eqb (Py.strip text) ""); [now eauto|].
    destruct w; eauto.
  - destruct (Z_le_dec 1 i) as [H1|H1];
      [destruct (Z_le_dec i (Z.of_nat (length (tasks_of (lines_of c))))) as [H2|H2]|];
      try (rewrite check_task_out_of_range by lia; now eauto).
    destruct (check_task_in_range c w i (conj H1 H2)) as (k & l & _ & ->).
    destruct (looks_completed l); [now eauto|]. destruct w; eauto.
  - destruct (Z_le_dec 1 i) as [H1|H1];
      [destruct (Z_le_dec i (Z.of_nat (length (tasks_of (lines_of c))))) as [H2|H2]|];
      try (rewrite delete_task_out_of_range by lia; now eauto).
    destruct (delete_task_in_range c w i (conj H1 H2)) as (k & l & _ & ->).
    destruct w; eauto.
  - unfold clear_done_tasks, bind. rewrite load_tasks_readable.
    destruct w; eauto.
  - unfold clear_all_tasks, bind. rewrite load_tasks_readable.
    destruct (Nat.eqb _ 0); [now eauto|]. destruct w; eauto.
Qed.

(** X14.  [check], [delete], [clearCompleted] and [clearAll] end in an
    exception nobody catches in one situation only: the file cannot be read
    and cannot be written either, so that the repair inside [load_tasks]
    fails.  In particular no index given to [check_task] or [delete_task]
    ever raises. *)
Theorem operation_raises_iff (op : operation) (st : store) :
  is_add op = false ->
  (run_operation op st = None <-> can_load st = false).
Proof.
  intros Hop. destruct st as [d w]. destruct d as [| |c].
  - unfold can_load. cbn [disk writable].
    rewrite run_operation_absent by (auto; discriminate).
    destruct w; split; try discriminate; auto.
  - unfold can_load. cbn [disk writable].
    rewrite run_operation_absent by (auto; discriminate).
    destruct w; split; try discriminate; auto.
  - destruct (run_operation_readable c w op) as (s & st' & ->).
    split; discriminate.
Qed.

Lemma operation_raises_iff_witness :
  run_operation (OpCheck 1) (Store Missing false) = None
  <-> can_load (Store Missing false) = false.
Proof.
  apply (operation_raises_iff (OpCheck 1) (Store Missing false)).
  reflexivity.
Defined.

(** ** Composing the operations *)




(** ** The shell *)

Lemma list_tasks_readable c w :
  list_tasks (Store (Readable c) w)
  = Some (imap (fun i l => Listed (i + 1) (looks_completed l) l)
               (tasks_of (lines_of c)),
          Store (Readable c) w).
Proof. reflexivity. Qed.

(** X16.  A line that, trimmed and lower-cased, is [exit] ends the shell:
    whatever input follows is not read, and on a readable file the screen is
    drawn once, showing the pending status, and the file is not touched. *)
Theorem shell_stops_at_exit
    (cmd : string) (rest : list input_event) (status_msg : option status)
    (st : store) :
  Py.lower (Py.strip cmd) = "exit" ->
  shell_loop (Line cmd :: rest) status_msg st = shell_loop [] status_msg st
  /\ forall c w, st = Store (Readable c) w ->
       exists rows,
         list_tasks st = Some (rows, st)
         /\ shell_loop (Line cmd :: rest) status_msg st
            = Some ([Screen rows status_msg], st).
Proof.
  intros Hcmd.
  assert (E : shell_loop (Line cmd :: rest) status_msg st = shell_loop [] status_msg st).
  { cbn [shell_loop]. rewrite Hcmd. unfold bind.
    destruct (redraw status_msg st) as [[scr st1]|]; reflexivity. }
  split; [exact E|].
  intros c w ->. eexists. split; [apply list_tasks_readable|].
  rewrite E. cbn [shell_loop]. unfold bind, redraw, bind.
  now rewrite list_tasks_readable.
Qed.

Lemma shell_stops_at_exit_witness :
  shell_loop [Line " EXIT "; Line "clearall"; Line "y"] None
             (on_disk (Sample.file ["- [ ] a"]))
  = shell_loop [] None (on_disk (Sample.file ["- [ ] a"]))
  /\ forall c w, on_disk (Sample.file ["- [ ] a"]) = Store (Readable c) w ->
       exists rows,
         list_tasks (on_disk (Sample.file ["- [ ] a"]))
         = Some (rows, on_disk (Sample.file ["- [ ] a"]))
         /\ shell_loop [Line " EXIT "; Line "clearall"; Line "y"] None
                       (on_disk (Sample.file ["- [ ] a"]))
            = Some ([Screen rows None], on_disk (Sample.file ["- [ ] a"])).
Proof.
  apply (shell_stops_at_exit " EXIT " [Line "clearall"; Line "y"] None).
  reflexivity.
Defined.

(** ** No uncaught exception *)
















(** X20.  Whatever line endings a readable file has, loading it, saving the
    lines and loading again gives the lines of the first load (one empty
    line when there was none): saving through the program changes line
    endings only, never a line. *)
Theorem load_save_load_same_lines (c : string) :
  (let* _ := save_loaded in load_tasks) (on_disk c)
  = Some (match lines_of c with [] => [""] | _ => lines_of c end,
          on_disk (saved (lines_of c))).
Proof.
  unfold save_loaded, bind, on_disk.
  rewrite load_tasks_readable, save_tasks_writable. unfold on_disk.
  rewrite load_tasks_readable.
  now rewrite lines_of_saved by apply lines_of_unbroken.
Qed.

(** ** The text the shell hands to [add_task] *)

Lemma rstrip_cons c s :
  Py.rstrip (String c s)
  = match Py.rstrip s with
    | EmptyString => if Char.is_space c then EmptyString else String c EmptyString
    | r => String c r
    end.
Proof. reflexivity. Qed.

Lemma rstrip_blank s : blank s = true -> Py.rstrip s = "".
Proof.
  induction s as [|c s IH]; [reflexivity|].
  simpl blank. intros H. apply andb_prop in H as [Hc Hs].
  now rewrite rstrip_cons, (IH Hs), Hc.
Qed.

Lemma rstrip_not_blank s : blank s = false -> Py.rstrip s <> "".
Proof.
  induction s as [|c s IH]; [discriminate|].
  simpl blank. rewrite rstrip_cons. intros H.
  destruct (Py.rstrip s) eqn:E; [|discriminate].
  destruct (Char.is_space c); [|discriminate].
  simpl in H. now destruct (IH H).
Qed.

Lemma rstrip_idempotent s : Py.rstrip (Py.rstrip s) = Py.rstrip s.
Proof.
  induction s as [|c s IH]; [reflexivity|].
  rewrite rstrip_cons. destruct (Py.rstrip s) as [|d r] eqn:E.
  - destruct (Char.is_space c) eqn:Hc; [reflexivity|].
    rewrite rstrip_cons. simpl Py.rstrip at 1. now rewrite Hc.
  - rewrite rstrip_cons, IH. reflexivity.
Qed.

Lemma lower_keeps_space c : Char.is_space (Char.lower c) = Char.is_space c.
Proof. destruct c as [[] [] [] [] [] [] [] []]; reflexivity. Qed.

Lemma rstrip_lower s : Py.rstrip (Py.lower s) = Py.lower (Py.rstrip s).
Proof.
  induction s as [|c s IH]; [reflexivity|].
  simpl Py.lower at 1. rewrite !rstrip_cons, IH.
  destruct (Py.rstrip s); simpl Py.lower.
  - rewrite lower_keeps_space. now destruct (Char.is_space c).
  - reflexivity.
Qed.

(** A command the shell dispatches on has no trailing white space. *)
Lemma command_rstripped raw :
  Py.rstrip (Py.lower (Py.strip raw)) = Py.lower (Py.strip raw).
Proof. unfold Py.strip. now rewrite rstrip_lower, rstrip_idempotent. Qed.

Lemma split_blank s : blank s = false -> Py.split s <> [].
Proof.
  induction s as [|c s IH]; [discriminate|].
  simpl blank. simpl Py.split. destruct (Char.is_space c); simpl.
  - exact IH.
  - intros _. destruct s as [|d s]; [discriminate|].
    destruct (Char.is_space d); [discriminate|].
    now destruct (Py.split (String d s)).
Qed.

(** Every word [split] returns starts with a character that is not white
    space. *)
Lemma split_words_start s :
  Forall (fun w => blank w = false) (Py.split s).
Proof.
  induction s as [|c s IH]; [constructor|].
  simpl Py.split. destruct (Char.is_space c) eqn:Hc; [exact IH|].
  assert (Hw : forall t, blank (String c t) = false)
    by (intros t; simpl; now rewrite Hc).
  destruct s as [|d s]; [repeat constructor; apply Hw|].
  destruct (Char.is_space d).
  - constructor; [apply Hw | exact IH].
  - destruct (Py.split (String d s)) as [|w ws]; simpl.
    + repeat constructor. apply Hw.
    + inversion IH; subst. constructor; [apply Hw | assumption].
Qed.

Lemma strip_not_blank s : blank s = false -> Py.strip s <> "".
Proof.
  intros H. unfold Py.strip. apply rstrip_not_blank.
  induction s as [|c s IH]; [discriminate|].
  simpl in *. destruct (Char.is_space c) eqn:Hc; [now apply IH|].
  simpl. now rewrite Hc.
Qed.

Lemma join_words_not_blank w ws :
  blank w = false -> blank (Py.join " " (w :: ws)) = false.
Proof.
  intros H. unfold Py.join. simpl String.concat.
  assert (G : forall t, blank (w ++ t) = false).
  { induction w as [|c w IH]; [discriminate|]. intros t.
    simpl in *. destruct (Char.is_space c); [now apply IH|reflexivity]. }
  destruct ws; [assumption | apply G].
Qed.

(** X21.  In the shell, a command line that starts with [add] and a space
    hands [add_task] the words after [add] joined by single spaces; there is
    at least one word, so the text is never blank and the shell's [add]
    never answers "Task cannot be empty". *)
Theorem shell_add_text_is_not_blank
    (raw : string) (rest : list input_event) (status_msg : option status)
    (st : store) :
  let command := Py.lower (Py.strip raw) in
  let task := Py.join " " (tl (Py.split command)) in
  Py.startswith "add " command = true ->
  shell_loop (Line raw :: rest) status_msg st
  = (let* scr := redraw status_msg in
     let* s := add_task task in
     let* scrs := shell_loop rest (Some s) in
     ret (scr :: scrs)) st
  /\ Py.strip task <> ""
  /\ exists s st', add_task task st = Some (s, st') /\ s <> EmptyInput.
Proof.
  intros command task Hadd.
  pose proof (command_rstripped raw) as Hr. fold command in Hr.
  destruct command as [|c1 [|c2 [|c3 [|c4 r]]]] eqn:Ecmd;
    rewrite ?startswith_cons, ?startswith_empty, ?andb_false_r in Hadd;
    try discriminate.
  apply andb_prop in Hadd as [H1 Hadd]. apply andb_prop in Hadd as [H2 Hadd].
  apply andb_prop in Hadd as [H3 Hadd]. apply andb_prop in Hadd as [H4 _].
  apply Ascii.eqb_eq in H1, H2, H3, H4. subst c1 c2 c3 c4.
  assert (Hblank : blank r = false).
  { destruct (blank r) eqn:Hb; [|reflexivity].
    exfalso.
    do 4 rewrite rstrip_cons in Hr.
    rewrite (rstrip_blank r Hb) in Hr. discriminate Hr. }
  assert (Htask : task = Py.join " " (Py.split r)) by reflexivity.
  assert (Hnb : blank task = false).
  { rewrite Htask. pose proof (split_words_start r) as Hw.
    pose proof (split_blank r Hblank) as Hne.
    destruct (Py.split r) as [|w ws]; [congruence|].
    inversion Hw; subst. now apply join_words_not_blank. }
  pose proof (strip_not_blank task Hnb) as Hstrip.
  split; [|split; [assumption|]].
  - cbn [shell_loop]. fold command. rewrite Ecmd. unfold bind.
    destruct (redraw status_msg st) as [[scr st1]|]; [|reflexivity].
    replace (String.eqb (String "a" (String "d" (String "d" (String " " r)))) "exit")
      with false by reflexivity.
    replace (Py.startswith "add " (String "a" (String "d" (String "d" (String " " r)))))
      with true by (symmetry; apply (startswith_app "add " r)).
    reflexivity.
  - unfold add_task. apply String.eqb_neq in Hstrip. rewrite Hstrip.
    unfold bind, append_text. destruct (writable st); eexists _, _;
      (split; [reflexivity|discriminate]).
Qed.

Lemma shell_add_text_is_not_blank_witness :
  let command := Py.lower (Py.strip "  add   Buy   Milk ") in
  let task := Py.join " " (tl (Py.split command)) in
  shell_loop [Line "  add   Buy   Milk "] None (on_disk Sample.fresh)
  = (let* scr := redraw None in
     let* s := add_task task in
     let* scrs := shell_loop [] (Some s) in
     ret (scr :: scrs)) (on_disk Sample.fresh)
  /\ Py.strip task <> ""
  /\ exists s st', add_task task (on_disk Sample.fresh) = Some (s, st')
                   /\ s <> EmptyInput.
Proof.
  apply (shell_add_text_is_not_blank "  add   Buy   Milk " [] None).
  reflexivity.
Defined.
